(** * GCRCatalogs: the DC2 DM (Parquet) reader and the DC2 truth (sqlite) reader

    A shallow embedding of [GCRCatalogs/dc2_dm_catalog.py] and
    [GCRCatalogs/dc2_truth22i.py], and the properties their design document
    states about them.

    Python values are modelled as follows.
    - A one-dimensional boolean [ndarray] is a [list bool].
    - A [dict] with string keys is a [gmap string _]; a [tuple] or [list] of
      strings is a [list string].
    - A raised exception is the [Err] case of [result]; code that also changes
      the file system or the instance runs in the monad [M] over a [world],
      whose changes survive a raised exception as they do in Python.
    - An object with identity (a [pq.ParquetFile] handle) carries the serial
      number of its allocation. *)

From Stdlib Require Import String Ascii.
From stdpp Require Import gmap strings list fin_maps sorting.

Local Open Scope string_scope.

(** ** Exceptions *)

Inductive exn : Type :=
  | ValueError (msg : string)
  | RuntimeError (msg : string)
  | IndexError
  | KeyError (key : string)
  | OSError
  | YAMLError
  | ArrowInvalid.

Inductive result (A : Type) : Type :=
  | Ok (a : A)
  | Err (e : exn).
Arguments Ok {A} a.
Arguments Err {A} e.

Definition rbind {A B : Type} (m : result A) (k : A → result B) : result B :=
  match m with
  | Ok a => k a
  | Err e => Err e
  end.

Notation "'do' x <- m ; k" := (rbind m (fun x => k))
  (at level 10, x pattern, m at level 100, k at level 200).

(** A Python [for] loop whose body may raise, as a left fold. *)
Fixpoint for_each {A S : Type} (body : S → A → result S) (xs : list A) (s : S)
  : result S :=
  match xs with
  | [] => Ok s
  | x :: xs' => do s' <- body s x; for_each body xs' s'
  end.

(** ** numpy on one-dimensional boolean arrays *)

Abbreviation ndarray := (list bool) (only parsing).

Module Numpy.

(** [np.ones(n, np.bool)] *)
Definition ones (n : nat) : ndarray := replicate n true.

(** [~flag] *)
Definition invert (flag : ndarray) : ndarray := negb <$> flag.

(** [out &= b], in place.  The right operand is broadcast to the shape of
    [out]: equal lengths combine element by element, a right operand of
    length one is stretched over [out], and any other shape is refused
    with a [ValueError] ([out] itself is never reshaped). *)
Definition iand (out b : ndarray) : result ndarray :=
  if decide (length b = length out) then Ok (zip_with andb out b)
  else match b with
       | [b0] => Ok ((λ o, andb o b0) <$> out)
       | _ => Err (ValueError "operands could not be broadcast together")
       end.

End Numpy.

(** ** [dc2_dm_catalog.create_basic_flag_mask] *)

Definition create_basic_flag_mask (flags : list ndarray)
  : result ndarray :=
  match flags with
  | [] => Err IndexError                       (* flags[0] on an empty tuple *)
  | flag0 :: _ =>
      for_each (λ out flag, Numpy.iand out (Numpy.invert flag))
               flags (Numpy.ones (length flag0))
  end.

(** One turn of that loop on arrays of the length of [out]. *)
Definition mask_step (out flag : ndarray) : ndarray :=
  zip_with andb out (Numpy.invert flag).

(** ** Python helpers shared by the two readers *)

(** [dict(pairs)] and a dict comprehension: a later pair with the same key
    replaces an earlier one. *)
Definition py_dict {V : Type} (pairs : list (string * V)) : gmap string V :=
  foldl (λ d kv, <[kv.1 := kv.2]> d) ∅ pairs.

(** [sep.join(items)] *)
Definition join (sep : string) (items : list string) : string :=
  String.concat sep items.

(** [s.endswith(suffix)] *)
Definition endswith (s suffix : string) : bool :=
  let n := String.length s in
  let k := String.length suffix in
  (k <=? n)%nat && String.eqb (substring (n - k) k s) suffix.

(** ** [dc2_truth22i]: the reader backed by one sqlite table *)

Module Truth.

(** The value of the [base_filters] keyword: [None], a [str], or a list or
    tuple of [str]. *)
Inductive py_filters : Type :=
  | PyNone
  | PyStr (s : string)
  | PySeq (items : list string).

(** Truth value of [if base_filters:] *)
Definition truthy (v : py_filters) : bool :=
  match v with
  | PyNone => false
  | PyStr s => negb (String.eqb s "")
  | PySeq items => match items with [] => false | _ :: _ => true end
  end.

(** Modelled from the spec: [is_string_like] of [GCRCatalogs/utils.py] is
    not among the sources.  The reader documents [base_filters] as
    "str or list of str"; the helper tells the first from the second. *)
Definition is_string_like (v : py_filters) : bool :=
  match v with
  | PyStr _ => true
  | _ => false
  end.

(** [(v,)] for a string [v], the only values [is_string_like] holds of. *)
Definition py_singleton (v : py_filters) : list string :=
  match v with
  | PyStr s => [s]
  | _ => []
  end.

(** [tuple(v)]: the items of a sequence, and the characters of a string.
    [None] is falsy and is never given to [tuple]. *)
Definition py_tuple (v : py_filters) : list string :=
  match v with
  | PySeq items => items
  | PyStr s => (λ c, String c EmptyString) <$> list_ascii_of_string s
  | PyNone => []
  end.

(** One row of [PRAGMA table_info(<table>)]:
    [(cid, name, type, notnull, dflt_value, pk)]. *)
Record table_info_row : Type := {
  ti_cid : Z;
  ti_name : string;
  ti_type : string;
  ti_notnull : bool;
  ti_dflt_value : option string;
  ti_pk : Z
}.

(** [type_dict] of [_subclass_init] *)
Definition type_dict : gmap string string :=
  <["DOUBLE" := "float64"]>
    (<["FLOAT" := "float32"]>
       (<["INT" := "int32"]>
          (<["BIGINT" := "int64"]> ∅))).

(** The loop over [self._native_quantity_dtypes.items()]: an entry whose
    value is a key of [type_dict] is overwritten.  No key is added or
    removed while the items are visited, and each is visited once. *)
Definition rewrite_dtypes (dtypes : gmap string string) : gmap string string :=
  foldl (λ d kv, match type_dict !! kv.2 with
                 | Some t => <[kv.1 := t]> d
                 | None => d
                 end)
        dtypes (map_to_list dtypes).

(** ['PRAGMA table_info({});'.format(table_name)] *)
Definition pragma_table_info (table_name : string) : string :=
  "PRAGMA table_info(" ++ table_name ++ ");".

(** The entry the loop leaves for a column declared with [declared]. *)
Definition canonical_dtype (declared : string) : string :=
  default declared (type_dict !! declared).

Section reader.
(** A row of query results, as [fetchall] returns it; the reader only
    hands rows on to [np.array]. *)
Context {row : Type}.

(** What a connection answers to the statements the reader runs on its
    cursors, each given the text of the statement. *)
Record database : Type := {
  db_column_descriptions : string → result (list (string * string));
  db_table_info : string → result (list table_info_row);
  db_select : string → result (list row)
}.

Record environment : Type := {
  env_isfile : string → bool;           (* os.path.isfile *)
  env_md5 : string → string;            (* utils.md5 of a file *)
  env_connect : string → database       (* sqlite3.connect *)
}.

Record kwargs : Type := {
  kw_filename : option string;
  kw_table_name : option string;
  kw_is_static : option bool;
  kw_base_filters : option py_filters;
  kw_md5 : option string
}.

Record DC2Truth22CatalogReader : Type := {
  _filename : string;
  _table_name : string;
  _is_static : bool;
  base_filters : list string;
  _conn : database;
  _column_descriptions : gmap string string;
  _native_quantity_dtypes : gmap string string
}.

Definition _subclass_init (env : environment) (kw : kwargs)
  : result DC2Truth22CatalogReader :=
  do filename <- match kw_filename kw with
                 | Some f => Ok f
                 | None => Err (KeyError "filename")
                 end;
  let table_name := default "truth" (kw_table_name kw) in
  let is_static := default true (kw_is_static kw) in
  let base_filters_kw := default PyNone (kw_base_filters kw) in
  let base_filters :=
    if truthy base_filters_kw then
      if is_string_like base_filters_kw then py_singleton base_filters_kw
      else py_tuple base_filters_kw
    else [] in
  if negb (env_isfile env filename) then
    Err (ValueError (filename ++ " is not a valid file"))
  else if match kw_md5 kw with
          | Some sum => negb (String.eqb sum "")
                        && negb (String.eqb (env_md5 env filename) sum)
          | None => false
          end then
    Err (ValueError "md5 sum does not match!")
  else
    let conn := env_connect env filename in
    do column_descriptions <-
      (if is_static then
         do rows <- db_column_descriptions conn
                      "SELECT name, description FROM column_descriptions;";
         Ok (py_dict rows)
       else Ok ∅);
    do results <- db_table_info conn (pragma_table_info table_name);
    let native_quantity_dtypes :=
      py_dict ((λ t, (ti_name t, ti_type t)) <$> results) in
    Ok {| _filename := filename;
          _table_name := table_name;
          _is_static := is_static;
          base_filters := base_filters;
          _conn := conn;
          _column_descriptions := column_descriptions;
          _native_quantity_dtypes := rewrite_dtypes native_quantity_dtypes |}.

(** [list(self._native_quantity_dtypes)], in no particular order. *)
Definition _generate_native_quantity_list (self : DC2Truth22CatalogReader)
  : list string :=
  (map_to_list (_native_quantity_dtypes self)).*1.

(** The structured array [np.array(rows, dtype)]: the record dtype given
    to [np.dtype] as [(name, type)] pairs, and the rows. *)
Record structured_array : Type := {
  sa_dtype : list (string * string);
  sa_rows : list row
}.

(** The closure [dc2_truth_native_quantity_getter]: the instance and the
    WHERE clause computed before the [yield]. *)
Record getter : Type := {
  g_self : DC2Truth22CatalogReader;
  g_query_where_clause : string
}.

(** [[(q, self._native_quantity_dtypes[q]) for q in quantities]] *)
Fixpoint record_dtype (dtypes : gmap string string) (quantities : list string)
  : result (list (string * string)) :=
  match quantities with
  | [] => Ok []
  | q :: qs =>
      match dtypes !! q with
      | None => Err (KeyError q)
      | Some t => do rest <- record_dtype dtypes qs; Ok ((q, t) :: rest)
      end
  end.

(** The text of the SELECT statement the getter formats. *)
Definition select_statement (g : getter) (quantities : list string) : string :=
  "SELECT " ++ join ", " quantities ++ " FROM " ++ _table_name (g_self g)
    ++ " " ++ g_query_where_clause g ++ ";".

(** A call of the getter.  [executed] lists the statements the cursor of
    this iteration has run so far, oldest first. *)
Definition dc2_truth_native_quantity_getter
    (g : getter) (quantities : list string) (executed : list string)
  : result structured_array * list string :=
  match record_dtype (_native_quantity_dtypes (g_self g)) quantities with
  | Err e => (Err e, executed)
  | Ok dtype =>
      let query := select_statement g quantities in
      match db_select (_conn (g_self g)) query with
      | Err e => (Err e, (executed ++ [query])%list)
      | Ok rows => (Ok {| sa_dtype := dtype; sa_rows := rows |},
                    (executed ++ [query])%list)
      end
  end.

(** The generator [_iter_native_dataset]: the getters it yields, in
    order.  It has a single [yield] and no statement after it. *)
Definition _iter_native_dataset
    (self : DC2Truth22CatalogReader) (native_filters : option (list string))
  : list getter :=
  let all_filters :=
    match native_filters with
    | Some filters => (base_filters self ++ filters)%list
    | None => base_filters self
    end in
  let query_where_clause :=
    match all_filters with
    | _ :: _ => "WHERE (" ++ join ") AND (" all_filters ++ ")"
    | [] => ""
    end in
  [ {| g_self := self; g_query_where_clause := query_where_clause |} ].

(** [_obtain_native_data_dict] *)
Definition _obtain_native_data_dict {A B : Type}
    (native_quantities_needed : A) (native_quantity_getter : A → B) : B :=
  native_quantity_getter native_quantities_needed.

Definition _get_quantity_info_dict
    (self : DC2Truth22CatalogReader) (quantity : string)
    (default : option string) : option string :=
  match _column_descriptions self !! quantity with
  | Some description => Some description
  | None => default
  end.

End reader.

Arguments database : clear implicits.
Arguments environment : clear implicits.
Arguments DC2Truth22CatalogReader : clear implicits.
Arguments structured_array : clear implicits.
Arguments getter : clear implicits.

End Truth.

(** ** [dc2_dm_catalog]: the reader backed by a directory of Parquet files *)

(** [os.path.join(a, b)] for POSIX paths *)
Definition path_join (a b : string) : string :=
  if String.prefix "/" b then b
  else if String.eqb a "" || endswith a "/" then a ++ b
  else a ++ "/" ++ b.

(** [sorted(names)] on strings: ascending in the order of their characters. *)
Definition str_le (a b : string) : Prop := String.leb a b = true.

#[global] Instance str_le_dec (a b : string) : Decision (str_le a b).
Proof. unfold str_le. apply _. Defined.

Definition sorted (names : list string) : list string :=
  merge_sort str_le names.

Module DM.

Inductive yaml_scalar : Type :=
  | YStr (s : string)
  | YBool (b : bool)
  | YNull.

(** A schema entry [{'dtype': ..., 'default': ...}]; the second key may be
    absent. *)
Record schema_entry : Type := {
  se_dtype : string;
  se_default : option yaml_scalar
}.

(** An entry of [_quantity_info_dict]. *)
Record quantity_info : Type := {
  qi_description : yaml_scalar;
  qi_unit : yaml_scalar;
  qi_in_GCRbase : yaml_scalar;
  qi_in_DPDD : yaml_scalar
}.

(** [FILE_PATTERN = r'source_visit_\d+\.parquet$'] under [re.match], on
    ASCII names: the prefix, one or more digits, the extension, and then
    the end of the name or one last newline. *)
Definition is_digit (c : ascii) : bool :=
  (48 <=? nat_of_ascii c)%nat && (nat_of_ascii c <=? 57)%nat.

Fixpoint strip_prefix (p s : string) : option string :=
  match p with
  | EmptyString => Some s
  | String cp p' =>
      match s with
      | String cs s' => if Ascii.eqb cp cs then strip_prefix p' s' else None
      | EmptyString => None
      end
  end.

Fixpoint skip_digits (s : string) : string :=
  match s with
  | String c s' => if is_digit c then skip_digits s' else s
  | EmptyString => s
  end.

Definition FILE_PATTERN (fname : string) : bool :=
  match strip_prefix "source_visit_" fname with
  | Some (String c rest) =>
      is_digit c
      && (let tail := skip_digits rest in
          String.eqb tail ".parquet"
          || String.eqb tail (".parquet" ++ String "010" EmptyString))
  | _ => false
  end.

Definition SCHEMA_FILENAME : string := "schema.yaml".

Section catalog.
(** A value stored in a column; the reader only hands values on. *)
Context {cell : Type}.
(** The directory of the module, [FILE_DIR]. *)
Context (FILE_DIR : string).

Definition META_PATH : string :=
  path_join FILE_DIR "catalog_configs/_dc2_source_meta.yaml".

Record column : Type := {
  col_dtype : string;
  col_values : list cell
}.

(** What a path holds.  [FileSchema] and [FileMeta] are YAML documents as
    [yaml.load] returns them ([None] for an empty schema document);
    [FileParquet] lists the columns of a Parquet file in file order;
    [FileUnreadable] is a file whose opening raises [OSError];
    [FileOther] is any other content. *)
Inductive file : Type :=
  | FileSchema (doc : option (gmap string schema_entry))
  | FileMeta (doc : gmap string (list yaml_scalar))
  | FileParquet (data : list (string * column))
  | FileUnreadable
  | FileOther.

Record filesystem : Type := {
  fs_dirs : gmap string (list string);    (* directory ↦ os.listdir *)
  fs_files : gmap string file             (* regular files *)
}.

(** A [pq.ParquetFile] object: [pf_id] is the serial number of its
    allocation, which tells two objects apart. *)
Record ParquetFile : Type := {
  pf_id : nat;
  pf_path : string;
  pf_data : list (string * column)
}.

Inductive io_event : Type :=
  | CopyFile (src dst : string)
  | WriteFile (path : string)
  | ClearCache (dataset : nat).

Record world : Type := {
  w_fs : filesystem;
  w_next_id : nat;
  w_warnings : list string;
  w_events : list io_event
}.

(** *** Computations that read and change the world *)

Definition M (A : Type) : Type := world → result A * world.

Definition ret {A : Type} (a : A) : M A := λ w, (Ok a, w).

Definition raise {A : Type} (e : exn) : M A := λ w, (Err e, w).

Definition bind {A B : Type} (m : M A) (k : A → M B) : M B :=
  λ w, match m w with
       | (Ok a, w') => k a w'
       | (Err e, w') => (Err e, w')
       end.

#[local] Notation "'let*' x := m 'in' k" := (bind m (λ x, k))
  (at level 10, x pattern, m at level 100, k at level 200).

(** [try: m  except (IOError, OSError): handler] *)
Definition try_except_OSError {A : Type} (m handler : M A) : M A :=
  λ w, match m w with
       | (Err OSError, w') => handler w'
       | r => r
       end.

Fixpoint for_eachM {A S : Type} (body : S → A → M S) (xs : list A) (s : S)
  : M S :=
  match xs with
  | [] => ret s
  | x :: xs' => let* s' := body s x in for_eachM body xs' s'
  end.

Definition add_warning (msg : string) (w : world) : world :=
  {| w_fs := w_fs w; w_next_id := w_next_id w;
     w_warnings := (w_warnings w ++ [msg])%list;
     w_events := w_events w |}.

(** [warnings.warn(msg)] *)
Definition warn (msg : string) : M unit :=
  λ w, (Ok tt, add_warning msg w).

Definition add_events (evs : list io_event) (w : world) : world :=
  {| w_fs := w_fs w; w_next_id := w_next_id w;
     w_warnings := w_warnings w;
     w_events := (w_events w ++ evs)%list |}.

Definition emit (ev : io_event) : M unit :=
  λ w, (Ok tt, add_events [ev] w).

Definition write_file (path : string) (f : file) (w : world) : world :=
  {| w_fs := {| fs_dirs := fs_dirs (w_fs w);
                fs_files := <[path := f]> (fs_files (w_fs w)) |};
     w_next_id := w_next_id w;
     w_warnings := w_warnings w;
     w_events := w_events w |}.

Definition set_file (path : string) (f : file) : M unit :=
  λ w, (Ok tt, write_file path f w).

(** [os.path.isdir] and [os.path.isfile]; both are false on the empty
    path. *)
Definition isdir (path : string) : M bool :=
  λ w, (Ok (negb (String.eqb path "")
            && bool_decide (is_Some (fs_dirs (w_fs w) !! path))), w).

Definition isfile (path : string) : M bool :=
  λ w, (Ok (negb (String.eqb path "")
            && bool_decide (is_Some (fs_files (w_fs w) !! path))), w).

Definition listdir (path : string) : M (list string) :=
  λ w, match fs_dirs (w_fs w) !! path with
       | Some names => (Ok names, w)
       | None => (Err OSError, w)
       end.

(** [pq.ParquetFile(file_path)]: a new object on a Parquet file,
    [OSError] when the path cannot be opened as a file, and pyarrow's
    own error on other content. *)
Definition pq_ParquetFile (file_path : string) : M ParquetFile :=
  λ w, match fs_files (w_fs w) !! file_path with
       | Some (FileParquet data) =>
           (Ok {| pf_id := w_next_id w; pf_path := file_path;
                  pf_data := data |},
            {| w_fs := w_fs w; w_next_id := S (w_next_id w);
               w_warnings := w_warnings w; w_events := w_events w |})
       | Some FileUnreadable | None => (Err OSError, w)
       | Some _ => (Err ArrowInvalid, w)
       end.

(** [shutil.copyfile(src, dst)] *)
Definition copyfile (src dst : string) : M unit :=
  let* content := (λ w, match fs_files (w_fs w) !! src with
                        | Some FileUnreadable | None => (Err OSError, w)
                        | Some f => (Ok f, w)
                        end) in
  let* _ := set_file dst content in
  emit (CopyFile src dst).

(** [with open(path, 'w') as stream: yaml.dump(schema, stream)]; opening
    for writing fails on the empty path and on a directory. *)
Definition yaml_dump_to (path : string) (schema : gmap string schema_entry)
  : M unit :=
  let* is_dir := isdir path in
  if String.eqb path "" || is_dir then raise OSError
  else
    let* _ := set_file path (FileSchema (Some schema)) in
    emit (WriteFile path).

(** *** The catalog *)

Record DC2DMCatalog : Type := {
  base_dir : string;
  _filename_re : string → bool;
  use_cache : bool;
  _schema_path : string;
  _schema : option (gmap string schema_entry);
  _file_handles : gmap string ParquetFile;
  _datasets : list ParquetFile;
  _quantity_modifiers : gmap string (option string);
  _quantity_info_dict : gmap string quantity_info;
  _native_filter_quantities : gset string
}.

Definition set_schema (schema : option (gmap string schema_entry))
    (self : DC2DMCatalog) : DC2DMCatalog :=
  {| base_dir := base_dir self; _filename_re := _filename_re self;
     use_cache := use_cache self; _schema_path := _schema_path self;
     _schema := schema;
     _file_handles := _file_handles self; _datasets := _datasets self;
     _quantity_modifiers := _quantity_modifiers self;
     _quantity_info_dict := _quantity_info_dict self;
     _native_filter_quantities := _native_filter_quantities self |}.

Definition set_file_handles (handles : gmap string ParquetFile)
    (self : DC2DMCatalog) : DC2DMCatalog :=
  {| base_dir := base_dir self; _filename_re := _filename_re self;
     use_cache := use_cache self; _schema_path := _schema_path self;
     _schema := _schema self;
     _file_handles := handles; _datasets := _datasets self;
     _quantity_modifiers := _quantity_modifiers self;
     _quantity_info_dict := _quantity_info_dict self;
     _native_filter_quantities := _native_filter_quantities self |}.

Definition set_datasets (datasets : list ParquetFile)
    (self : DC2DMCatalog) : DC2DMCatalog :=
  {| base_dir := base_dir self; _filename_re := _filename_re self;
     use_cache := use_cache self; _schema_path := _schema_path self;
     _schema := _schema self;
     _file_handles := _file_handles self; _datasets := datasets;
     _quantity_modifiers := _quantity_modifiers self;
     _quantity_info_dict := _quantity_info_dict self;
     _native_filter_quantities := _native_filter_quantities self |}.

Definition set_quantities
    (modifiers : gmap string (option string))
    (info : gmap string quantity_info) (native : gset string)
    (self : DC2DMCatalog) : DC2DMCatalog :=
  {| base_dir := base_dir self; _filename_re := _filename_re self;
     use_cache := use_cache self; _schema_path := _schema_path self;
     _schema := _schema self;
     _file_handles := _file_handles self; _datasets := _datasets self;
     _quantity_modifiers := modifiers;
     _quantity_info_dict := info;
     _native_filter_quantities := native |}.

(** [for col in self._schema] *)
Definition schema_columns (schema : option (gmap string schema_entry))
  : list string :=
  (map_to_list (default ∅ schema)).*1.

(** [not self._schema]: [None] or an empty dict *)
Definition schema_is_falsy (schema : option (gmap string schema_entry))
  : bool :=
  match schema with
  | None => true
  | Some columns => bool_decide (columns = ∅)
  end.

Definition _open_parquet (self : DC2DMCatalog) (file_path : string)
  : M (ParquetFile * DC2DMCatalog) :=
  match _file_handles self !! file_path with
  | Some handle => ret (handle, self)
  | None =>
      let* handle := pq_ParquetFile file_path in
      ret (handle,
           set_file_handles (<[file_path := handle]> (_file_handles self))
                            self)
  end.

Definition close_all_file_handles (self : DC2DMCatalog) : DC2DMCatalog :=
  set_file_handles ∅ self.

Definition _generate_datasets (self : DC2DMCatalog)
  : M (list ParquetFile * DC2DMCatalog) :=
  let* names := listdir (base_dir self) in
  for_eachM
    (λ '(datasets, self) fname,
       if negb (_filename_re self fname) then ret (datasets, self)
       else
         let file_path := path_join (base_dir self) fname in
         try_except_OSError
           (let* (df, self') := _open_parquet self file_path in
            ret ((datasets ++ [df])%list, self'))
           (let* _ := warn ("Cannot access " ++ file_path ++ "; skipped") in
            ret (datasets, self)))
    (sorted names) ([], self).

Definition _generate_schema_from_yaml (schema_path : string)
  : M (option (gmap string schema_entry)) :=
  let* schema := (λ w, match fs_files (w_fs w) !! schema_path with
                       | Some (FileSchema doc) => (Ok doc, w)
                       | Some FileUnreadable | None => (Err OSError, w)
                       | Some _ => (Err YAMLError, w)
                       end) in
  let* _ := match schema with
            | None => warn ("No schema can be found in schema file "
                            ++ schema_path)
            | Some _ => ret tt
            end in
  ret schema.

(** [{k: {'dtype': v} for k, v in df.dtypes.to_dict().items()}] *)
Definition native_schema (dataset : ParquetFile)
  : gmap string schema_entry :=
  (λ dtype, {| se_dtype := dtype; se_default := None |})
    <$> py_dict ((λ kc, (kc.1, col_dtype kc.2)) <$> pf_data dataset).

(** The loop of [_generate_schema_from_datafiles], from the dict
    [schema] built so far. *)
Fixpoint schema_from_datafiles_loop
    (datasets : list ParquetFile) (schema : gmap string schema_entry)
  : gmap string schema_entry :=
  match datasets with
  | [] => schema
  | dataset :: rest =>
      let native := native_schema dataset in
      let schema' := native ∪ schema in             (* schema.update *)
      if bool_decide (native = ∅)
      then schema_from_datafiles_loop rest schema'
      else schema'                                  (* break *)
  end.

Definition _generate_schema_from_datafiles (datasets : list ParquetFile)
  : gmap string schema_entry :=
  schema_from_datafiles_loop datasets ∅.

(** [_generate_modifiers] of the base class; a subclass overrides it. *)
Definition _generate_modifiers (dm_schema_version : nat)
  : gmap string (option string) := ∅.

Definition _generate_info_dict (meta_path : string)
  : M (gmap string quantity_info) :=
  let* base_dict := (λ w, match fs_files (w_fs w) !! meta_path with
                          | Some (FileMeta doc) => (Ok doc, w)
                          | Some FileUnreadable | None => (Err OSError, w)
                          | Some _ => (Err YAMLError, w)
                          end) in
  for_eachM
    (λ info_dict '(quantity, info_list),
       match info_list with
       | d :: u :: b :: p :: _ =>
           ret (<[quantity := {| qi_description := d; qi_unit := u;
                                 qi_in_GCRbase := b; qi_in_DPDD := p |}]>
                  info_dict)
       | _ => raise IndexError
       end)
    (map_to_list base_dict) ∅.

Definition _get_quantity_info_dict (self : DC2DMCatalog)
    (quantity : string) (default : option quantity_info)
  : option quantity_info :=
  match _quantity_info_dict self !! quantity with
  | Some info => Some info
  | None => default
  end.

Definition _generate_native_quantity_list (self : DC2DMCatalog)
  : gset string :=
  dom (default ∅ (_schema self)).

(** The version chosen by the [if]/[elif]/[else] of [_subclass_init]. *)
Definition dm_schema_version (schema : option (gmap string schema_entry))
  : nat :=
  if existsb (λ col, endswith col "_fluxSigma") (schema_columns schema)
  then 1
  else if existsb (λ col, endswith col "_fluxErr") (schema_columns schema)
  then 2
  else 3.

Record kwargs : Type := {
  kw_base_dir : option string;
  kw_filename_pattern : option (string → bool);
  kw_use_cache : option bool;
  kw_schema_filename : option string;
  kw_is_dpdd : option bool
}.

(** [generate_modifiers] is the method [_generate_modifiers] of the
    class being instantiated. *)
Definition _subclass_init
    (generate_modifiers : nat → gmap string (option string))
    (kw : kwargs) : M DC2DMCatalog :=
  let* base_dir := match kw_base_dir kw with
                   | Some d => ret d
                   | None => raise (KeyError "base_dir")
                   end in
  let filename_re := default FILE_PATTERN (kw_filename_pattern kw) in
  let use_cache := default true (kw_use_cache kw) in
  let* base_is_dir := isdir base_dir in
  if negb base_is_dir then
    raise (ValueError ("`base_dir` " ++ base_dir
                       ++ " is not a valid directory"))
  else
    let schema_filename :=
      default SCHEMA_FILENAME (kw_schema_filename kw) in
    let schema_path := path_join base_dir schema_filename in
    let* schema_is_file := isfile schema_path in
    let* schema :=
      (if negb (String.eqb schema_path "") && schema_is_file
       then _generate_schema_from_yaml schema_path
       else ret None) in
    let self :=
      {| base_dir := base_dir; _filename_re := filename_re;
         use_cache := use_cache; _schema_path := schema_path;
         _schema := schema;
         _file_handles := ∅; _datasets := [];
         _quantity_modifiers := ∅; _quantity_info_dict := ∅;
         _native_filter_quantities := ∅ |} in
    let* (datasets, self) := _generate_datasets self in
    let self := set_datasets datasets self in
    match _datasets self with
    | [] => raise (RuntimeError ("No catalogs were found in `base_dir` "
                                 ++ base_dir))
    | _ :: _ =>
        let* self :=
          (if schema_is_falsy (_schema self) then
             let* _ := warn "Falling back to reading all datafiles for column names" in
             ret (set_schema
                    (Some (_generate_schema_from_datafiles (_datasets self)))
                    self)
           else ret self) in
        let quantity_modifiers :=
          if default false (kw_is_dpdd kw) then
            (λ _, None) <$> default ∅ (_schema self)
          else generate_modifiers (dm_schema_version (_schema self)) in
        let* quantity_info_dict := _generate_info_dict META_PATH in
        ret (set_quantities quantity_modifiers quantity_info_dict
               (_generate_native_quantity_list self) self)
    end.

(** The body of the loop of [generate_schema_yaml] over [schema.items()]. *)
Definition flag_default (col : string) (schema_this : schema_entry)
  : schema_entry :=
  if String.eqb (se_dtype schema_this) "bool"
     && (endswith col "_flag_bad" || endswith col "_flag_noGoodPixels")
  then {| se_dtype := se_dtype schema_this;
          se_default := Some (YBool true) |}
  else schema_this.

Definition generate_schema_yaml (self : DC2DMCatalog) (overwrite : bool)
  : M unit :=
  let* schema_is_file := isfile (_schema_path self) in
  let* _ :=
    (if negb (String.eqb (_schema_path self) "") && schema_is_file then
       if negb overwrite then
         raise (RuntimeError
                  ("Schema file `" ++ _schema_path self
                   ++ "` already exists! Set `overwrite=True` to overwrite."))
       else
         let* _ := warn ("Overwriting schema file `" ++ _schema_path self
                         ++ "`, which is backed up at `"
                         ++ _schema_path self ++ ".bak`") in
         copyfile (_schema_path self) (_schema_path self ++ ".bak")
     else ret tt) in
  let schema := _generate_schema_from_datafiles (_datasets self) in
  let schema := map_imap (λ col schema_this,
                            Some (flag_default col schema_this)) schema in
  yaml_dump_to (_schema_path self) schema.

(** [dataset.clear_cache()], taken to be a method of the dataset object
    that drops what the object has cached, as the caller assumes. *)
Definition dataset_clear_cache (dataset : ParquetFile) : M unit :=
  emit (ClearCache (pf_id dataset)).


(** *** Iteration over the datasets *)

(** The closure [native_quantity_getter]: the dataset bound by its
    default argument. *)
Record getter : Type := { g_dataset : ParquetFile }.

(** [dataset.read(columns=[q]).to_pandas()[q].values] *)
Definition native_quantity_getter (g : getter) (native_quantity : string)
  : result (list cell) :=
  match py_dict (pf_data (g_dataset g)) !! native_quantity with
  | Some c => Ok (col_values c)
  | None => Err (KeyError native_quantity)
  end.

(** Where the generator [_iter_native_dataset] is suspended: before the
    loop reaches the datasets of [GenLoop]; at the [yield] for a dataset,
    with those that follow it; or finished. *)
Inductive gen_state : Type :=
  | GenLoop (rest : list ParquetFile)
  | GenYielded (dataset : ParquetFile) (rest : list ParquetFile)
  | GenExhausted.

Record generator : Type := {
  gen_self : DC2DMCatalog;
  gen_native_filters : option (list string);
  gen_at : gen_state
}.

(** Calling the generator function runs none of its body. *)
Definition _iter_native_dataset
    (self : DC2DMCatalog) (native_filters : option (list string))
  : generator :=
  {| gen_self := self; gen_native_filters := native_filters;
     gen_at := GenLoop (_datasets self) |}.

(** The [for] loop from its head until the next [yield] or its end: the
    [yield] is inside [if native_filters is None:]. *)
Fixpoint run_to_yield (native_filters : option (list string))
    (rest : list ParquetFile) : option getter * gen_state :=
  match rest with
  | [] => (None, GenExhausted)
  | dataset :: rest' =>
      match native_filters with
      | None => (Some {| g_dataset := dataset |}, GenYielded dataset rest')
      | Some _ => run_to_yield native_filters rest'
      end
  end.

(** [next(gen)]: [None] stands for [StopIteration]. *)
Definition gen_next (gen : generator) : M (option getter * generator) :=
  let resume rest :=
    let '(item, at_) := run_to_yield (gen_native_filters gen) rest in
    ret (item, {| gen_self := gen_self gen;
                  gen_native_filters := gen_native_filters gen;
                  gen_at := at_ |}) in
  match gen_at gen with
  | GenLoop rest => resume rest
  | GenYielded dataset rest =>
      let* _ := (if negb (use_cache (gen_self gen))
                 then dataset_clear_cache dataset
                 else ret tt) in
      resume rest
  | GenExhausted => ret (None, gen)
  end.

(** [list(gen)], with at most [fuel] calls of [next]: the items yielded
    and the generator as it is left. *)
Fixpoint gen_collect (fuel : nat) (gen : generator)
  : M (list getter * generator) :=
  match fuel with
  | O => ret ([], gen)
  | S fuel' =>
      let* (item, gen') := gen_next gen in
      match item with
      | None => ret ([], gen')
      | Some g =>
          let* (items, gen'') := gen_collect fuel' gen' in
          ret (g :: items, gen'')
      end
  end.

(** *** Vocabulary of the properties *)

(** Every cached handle was allocated before the next object will be. *)
Definition handles_allocated (self : DC2DMCatalog) (w : world) : Prop :=
  ∀ path handle,
    _file_handles self !! path = Some handle → pf_id handle < w_next_id w.



(** The document the constructor reads the declared schema from, as
    [yaml.load] returns it; [None] also when there is no such file. *)
Definition declared_schema (w : world) (schema_path : string)
  : option (gmap string schema_entry) :=
  if String.eqb schema_path "" then None
  else match fs_files (w_fs w) !! schema_path with
       | Some (FileSchema doc) => doc
       | _ => None
       end.

(** The schema path holds a YAML schema document or nothing. *)
Definition schema_file_loads (w : world) (schema_path : string) : Prop :=
  match fs_files (w_fs w) !! schema_path with
  | Some (FileSchema _) | None => True
  | Some _ => False
  end.

End catalog.

Arguments column : clear implicits.
Arguments file : clear implicits.
Arguments filesystem : clear implicits.
Arguments ParquetFile : clear implicits.
Arguments world : clear implicits.
Arguments M : clear implicits.
Arguments DC2DMCatalog : clear implicits.
Arguments getter : clear implicits.
Arguments generator : clear implicits.
Arguments gen_state : clear implicits.

End DM.

(** A small truth database used to exercise the reader: three columns, one
    of them declared with a type outside [type_dict]. *)
Module TruthExample.
Import Truth.

Definition column (cid : Z) (name type : string) : table_info_row :=
  {| ti_cid := cid; ti_name := name; ti_type := type;
     ti_notnull := false; ti_dflt_value := None; ti_pk := 0 |}.

Definition columns : list table_info_row :=
  [column 0 "a" "BIGINT"; column 1 "b" "DOUBLE"; column 2 "c" "TEXT"].

Definition db : database (list Z) :=
  {| db_column_descriptions := λ _, Ok [("a", "identifier"); ("b", "redshift")];
     db_table_info := λ _, Ok columns;
     db_select := λ _, Ok [[1; 2]; [3; 4]]%Z |}.

Definition env : environment (list Z) :=
  {| env_isfile := λ path, String.eqb path "truth.db";
     env_md5 := λ _, "0cc175b9c0f1b6a831c399e269772661";
     env_connect := λ _, db |}.

Definition kw (base_filters : option py_filters) : kwargs :=
  {| kw_filename := Some "truth.db";
     kw_table_name := None;
     kw_is_static := None;
     kw_base_filters := base_filters;
     kw_md5 := None |}.

End TruthExample.

(** A small data directory used to exercise the DM reader. *)
Module DMExample.
Import DM.

Definition FILE_DIR : string := "/opt/GCRCatalogs".

Definition col (dtype : string) (values : list Z) : column Z :=
  {| col_dtype := dtype; col_values := values |}.

Definition visit1 : list (string * column Z) :=
  [("ra", col "float64" [10; 20]%Z);
   ("psFlux_flag_bad", col "bool" [0; 1]%Z)].

Definition visit2 : list (string * column Z) :=
  [("ra", col "float64" [30]%Z);
   ("psFlux_flag_bad", col "bool" [0]%Z)].

Definition meta : file Z :=
  FileMeta {["ra" := [YStr "Right ascension"; YStr "degree";
                      YBool true; YBool true]]}.

Definition world_of (names : list string) (files : gmap string (file Z))
  : world Z :=
  {| w_fs := {| fs_dirs := {["/data" := names]};
                fs_files := <[META_PATH FILE_DIR := meta]> files |};
     w_next_id := 0; w_warnings := []; w_events := [] |}.

(** Two visits and a file that is not one. *)
Definition world_two : world Z :=
  world_of ["source_visit_2.parquet"; "notes.txt"; "source_visit_1.parquet"]
    (<["/data/source_visit_1.parquet" := FileParquet visit1]>
       {["/data/source_visit_2.parquet" := FileParquet visit2]}).

(** One visit whose table has no column, and no schema file. *)
Definition world_blank : world Z :=
  world_of ["source_visit_1.parquet"]
    {["/data/source_visit_1.parquet" := FileParquet []]}.

(** No visit. *)
Definition world_none : world Z := world_of ["notes.txt"] ∅.

(** Two visits and a schema file. *)
Definition world_schema : world Z :=
  world_of ["source_visit_1.parquet"; "schema.yaml"]
    (<["/data/source_visit_1.parquet" := FileParquet visit1]>
       {["/data/schema.yaml" :=
           FileSchema (Some {["ra" := {| se_dtype := "float64";
                                         se_default := None |}]})]}).

Definition kw : kwargs :=
  {| kw_base_dir := Some "/data";
     kw_filename_pattern := None;
     kw_use_cache := None;
     kw_schema_filename := None;
     kw_is_dpdd := None |}.

(** A schema file with a column of the oldest naming and one of the middle
    naming. *)
Definition schema_mixed : gmap string schema_entry :=
  <["g_fluxSigma" := {| se_dtype := "float64"; se_default := None |}]>
    {["r_fluxErr" := {| se_dtype := "float64"; se_default := None |}]}.

Definition world_mixed : world Z :=
  world_of ["source_visit_1.parquet"; "schema.yaml"]
    (<["/data/source_visit_1.parquet" := FileParquet visit1]>
       {["/data/schema.yaml" := FileSchema (Some schema_mixed)]}).

(** A subclass's [_generate_modifiers], which tells the versions apart. *)
Definition modifiers_of (dm_schema_version : nat)
  : gmap string (option string) :=
  match dm_schema_version with
  | 1 => {["psFlux_g" := Some "g_fluxSigma"]}
  | 2 => {["psFlux_g" := Some "g_fluxErr"]}
  | _ => {["psFlux_g" := Some "g_psfFluxErr"]}
  end.

Definition kw_missing : kwargs :=
  {| kw_base_dir := Some "/nowhere";
     kw_filename_pattern := None;
     kw_use_cache := None;
     kw_schema_filename := None;
     kw_is_dpdd := None |}.

Definition handle (id : nat) (path : string)
    (data : list (string * column Z)) : ParquetFile Z :=
  {| pf_id := id; pf_path := path; pf_data := data |}.

(** An instance over [world_schema], as the constructor leaves it but for
    the quantity tables. *)
Definition catalog : DC2DMCatalog Z :=
  {| base_dir := "/data"; _filename_re := FILE_PATTERN; use_cache := false;
     _schema_path := "/data/schema.yaml";
     _schema := Some {["ra" := {| se_dtype := "float64";
                                  se_default := None |}]};
     _file_handles :=
       {["/data/source_visit_1.parquet" :=
           handle 0 "/data/source_visit_1.parquet" visit1]};
     _datasets := [handle 0 "/data/source_visit_1.parquet" visit1];
     _quantity_modifiers := ∅; _quantity_info_dict := ∅;
     _native_filter_quantities := {["ra"]} |}.

(** [world_schema] once [catalog] has been built in it. *)
Definition world_open : world Z :=
  {| w_fs := w_fs world_schema; w_next_id := 1;
     w_warnings := []; w_events := [] |}.

End DMExample.

(** ** Vocabulary of the further properties *)

(** A filter as one predicate of a WHERE clause. *)
Definition paren (filter : string) : string := "(" ++ filter ++ ")".

(** Other ways of constructing the reader over the truth database. *)
Module TruthCases.
Import Truth.

Definition kw_of (filename : option string) (is_static : option bool)
    (md5 : option string) : kwargs :=
  {| kw_filename := filename;
     kw_table_name := None;
     kw_is_static := is_static;
     kw_base_filters := None;
     kw_md5 := md5 |}.

(** A database without the table of column descriptions. *)
Definition db_plain : database (list Z) :=
  {| db_column_descriptions :=
       λ _, Err (RuntimeError "no such table: column_descriptions");
     db_table_info := λ _, Ok TruthExample.columns;
     db_select := λ _, Ok [[1; 2]; [3; 4]]%Z |}.

Definition env_plain : environment (list Z) :=
  {| env_isfile := λ path, String.eqb path "truth.db";
     env_md5 := λ _, "0cc175b9c0f1b6a831c399e269772661";
     env_connect := λ _, db_plain |}.

End TruthCases.

Section dm_vocabulary.
Import DM.
Context {cell : Type}.

(** A computation that leaves the file system as it found it, whatever its
    outcome. *)
Definition reads_only {A : Type} (m : M cell A) : Prop :=
  ∀ w r w', m w = (r, w') → w_fs w' = w_fs w.

(** [pq.ParquetFile(path)] would give a handle. *)
Definition opens (w : world cell) (path : string) : bool :=
  match fs_files (w_fs w) !! path with
  | Some (FileParquet _) => true
  | _ => false
  end.

(** [pq.ParquetFile(path)] would raise [OSError]. *)
Definition inaccessible (w : world cell) (path : string) : bool :=
  match fs_files (w_fs w) !! path with
  | Some FileUnreadable | None => true
  | Some _ => false
  end.

(** The schema [generate_schema_yaml] writes for an instance. *)
Definition regenerated_schema (self : DC2DMCatalog cell)
  : gmap string schema_entry :=
  map_imap (λ col schema_this, Some (flag_default col schema_this))
           (_generate_schema_from_datafiles (_datasets self)).

(** The entry [_generate_info_dict] makes of the list a quantity has in
    the metadata file, which needs four items. *)
Definition info_of_list (info_list : list yaml_scalar) : option quantity_info :=
  match info_list with
  | d :: u :: b :: p :: _ =>
      Some {| qi_description := d; qi_unit := u;
              qi_in_GCRbase := b; qi_in_DPDD := p |}
  | _ => None
  end.

(** A string of decimal digits: what [\d*] matches in full, on ASCII
    text. *)
Fixpoint all_digits (s : string) : bool :=
  match s with
  | EmptyString => true
  | String c s' => is_digit c && all_digits s'
  end.



End dm_vocabulary.

(** Other data directories and instances of the DM reader. *)
Module DMCases.
Import DM DMExample.

(** A directory with two visits, a visit that cannot be read, and a
    listing that is not sorted. *)
Definition world_partial : world Z :=
  world_of ["source_visit_3.parquet"; "source_visit_2.parquet"; "notes.txt";
            "source_visit_1.parquet"]
    (<["/data/source_visit_1.parquet" := FileParquet visit1]>
       (<["/data/source_visit_2.parquet" := FileParquet visit2]>
          {["/data/source_visit_3.parquet" := FileUnreadable]})).

(** An instance as it is when [_generate_datasets] is called. *)
Definition blank : DC2DMCatalog Z :=
  {| base_dir := "/data"; _filename_re := FILE_PATTERN; use_cache := false;
     _schema_path := "/data/schema.yaml"; _schema := None;
     _file_handles := ∅; _datasets := [];
     _quantity_modifiers := ∅; _quantity_info_dict := ∅;
     _native_filter_quantities := ∅ |}.

Definition kw_dpdd : kwargs :=
  {| kw_base_dir := Some "/data";
     kw_filename_pattern := None;
     kw_use_cache := None;
     kw_schema_filename := None;
     kw_is_dpdd := Some true |}.

(** A handle on a table without columns. *)
Definition empty_visit : ParquetFile Z :=
  handle 0 "/data/source_visit_0.parquet" [].

(** A metadata file in which a quantity has only two items. *)
Definition world_short_meta : world Z :=
  {| w_fs := {| fs_dirs := ∅;
                fs_files :=
                  {[META_PATH FILE_DIR :=
                      FileMeta {["ra" := [YStr "Right ascension";
                                          YStr "degree"]]}]} |};
     w_next_id := 0; w_warnings := []; w_events := [] |}.

(** An instance over [world_two] with both visits, caching off. *)
Definition catalog_two : DC2DMCatalog Z :=
  {| base_dir := "/data"; _filename_re := FILE_PATTERN; use_cache := false;
     _schema_path := "/data/schema.yaml";
     _schema := Some {["ra" := {| se_dtype := "float64";
                                  se_default := None |}]};
     _file_handles :=
       <["/data/source_visit_1.parquet" :=
           handle 0 "/data/source_visit_1.parquet" visit1]>
         {["/data/source_visit_2.parquet" :=
             handle 1 "/data/source_visit_2.parquet" visit2]};
     _datasets := [handle 0 "/data/source_visit_1.parquet" visit1;
                   handle 1 "/data/source_visit_2.parquet" visit2];
     _quantity_modifiers := ∅; _quantity_info_dict := ∅;
     _native_filter_quantities := {["ra"]} |}.

End DMCases.

(** * Properties *)

Section flag_mask.
Import Numpy.

Lemma iand_same_length (out b : ndarray) :
  length b = length out → iand out b = Ok (zip_with andb out b).
Proof. intros Hlen. unfold iand. by rewrite decide_True. Qed.

Lemma length_mask_step (out flag : ndarray) :
  length flag = length out → length (mask_step out flag) = length out.
Proof.
  intros Hlen. unfold mask_step, invert.
  rewrite length_zip_with, length_fmap. lia.
Qed.

Lemma lookup_mask_step (out flag : ndarray) (i : nat) :
  mask_step out flag !! i = Some true
  ↔ out !! i = Some true ∧ flag !! i = Some false.
Proof.
  unfold mask_step, invert. rewrite lookup_zip_with, list_lookup_fmap.
  destruct (out !! i) as [[]|], (flag !! i) as [[]|]; simpl;
    intuition congruence.
Qed.

Lemma for_each_equal_length (flags : list ndarray) (out : ndarray) :
  Forall (λ flag, length flag = length out) flags →
  for_each (λ out flag, iand out (invert flag)) flags out
  = Ok (foldl mask_step out flags).
Proof.
  revert out. induction flags as [|flag flags IH]; intros out Hall; [done|].
  apply Forall_cons in Hall as [Hflag Hall]. simpl.
  rewrite iand_same_length by (unfold invert; by rewrite length_fmap).
  simpl. fold (mask_step out flag). apply IH.
  rewrite length_mask_step by done. done.
Qed.

Lemma length_foldl_mask_step (flags : list ndarray) (out : ndarray) :
  Forall (λ flag, length flag = length out) flags →
  length (foldl mask_step out flags) = length out.
Proof.
  revert out. induction flags as [|flag flags IH]; intros out Hall; [done|].
  apply Forall_cons in Hall as [Hflag Hall]. simpl.
  rewrite IH; rewrite length_mask_step by done; done.
Qed.

Lemma lookup_foldl_mask_step (flags : list ndarray) (out : ndarray) (i : nat) :
  foldl mask_step out flags !! i = Some true
  ↔ out !! i = Some true ∧ ∀ flag, flag ∈ flags → flag !! i = Some false.
Proof.
  revert out. induction flags as [|flag flags IH]; intros out; simpl.
  - split; [|tauto]. intros H. split; [done|]. intros flag Hin.
    by apply elem_of_nil in Hin.
  - rewrite IH, lookup_mask_step. split.
    + intros [[Ho Hf] Hrest]. split; [done|]. intros flag' Hin.
      apply elem_of_cons in Hin as [->|Hin]; auto.
    + intros [Ho Hall]. repeat split; [done| |].
      * apply Hall. by left.
      * intros flag' Hin. apply Hall. by right.
Qed.

Lemma lookup_ones (n i : nat) : i < n → ones n !! i = Some true.
Proof. intros Hi. unfold ones. by apply lookup_replicate_2. Qed.

(** Two boolean arrays of one length with the same true positions. *)
Lemma ndarray_eq (a b : ndarray) :
  length a = length b →
  (∀ i, a !! i = Some true ↔ b !! i = Some true) →
  a = b.
Proof.
  revert b. induction a as [|x a IH]; intros [|y b] Hlen Hiff; try done.
  f_equal.
  - specialize (Hiff 0). simpl in Hiff.
    destruct x, y; intuition congruence.
  - apply IH; [by injection Hlen|]. intros i. apply (Hiff (S i)).
Qed.

Lemma mask_equal_length (flags : list ndarray) (n : nat) :
  flags ≠ [] →
  Forall (λ flag, length flag = n) flags →
  create_basic_flag_mask flags = Ok (foldl mask_step (ones n) flags).
Proof.
  intros Hne Hall. destruct flags as [|flag0 flags]; [done|].
  unfold create_basic_flag_mask.
  assert (length flag0 = n) as -> by (by apply Forall_cons in Hall as [? _]).
  apply for_each_equal_length. unfold ones. by rewrite length_replicate.
Qed.

Lemma mask_set_flag (flags : list ndarray) (n k i : nat) (flag : ndarray) :
  Forall (λ flag, length flag = n) flags →
  flags !! k = Some flag →
  i < n →
  foldl mask_step (ones n) (<[k := <[i := true]> flag]> flags)
  = <[i := false]> (foldl mask_step (ones n) flags).
Proof.
  intros Hall Hk Hi.
  assert (length flag = n) as Hflag.
  { rewrite Forall_lookup in Hall. by apply (Hall k). }
  assert (Forall (λ flag, length flag = n)
                 (<[k := <[i := true]> flag]> flags)) as Hall'.
  { apply Forall_insert; [done|]. by rewrite length_insert. }
  assert (length (ones n) = n) as Hones.
  { unfold ones. by rewrite length_replicate. }
  apply ndarray_eq.
  { rewrite length_insert, !length_foldl_mask_step; by rewrite ?Hones. }
  intros j. rewrite lookup_foldl_mask_step.
  destruct (decide (j = i)) as [->|Hji].
  - rewrite list_lookup_insert_eq
      by (rewrite length_foldl_mask_step; by rewrite ?Hones).
    split; [|done]. intros [_ Hfalse].
    assert (<[i := true]> flag !! i = Some false) as Habs.
    { apply Hfalse. apply list_elem_of_lookup. exists k.
      apply list_lookup_insert_eq. by eapply lookup_lt_Some. }
    rewrite list_lookup_insert_eq in Habs by lia. done.
  - rewrite list_lookup_insert_ne by done.
    rewrite lookup_foldl_mask_step.
    split; intros [Ho Hfalse]; (split; [done|]); intros f Hf;
      apply list_elem_of_lookup in Hf as [k' Hk'].
    + destruct (decide (k' = k)) as [->|Hkk].
      * assert (f = flag) as -> by congruence.
        rewrite <- (list_lookup_insert_ne flag i j true) by done.
        apply Hfalse. apply list_elem_of_lookup. exists k.
        apply list_lookup_insert_eq. by eapply lookup_lt_Some.
      * apply Hfalse. apply list_elem_of_lookup. exists k'.
        by rewrite list_lookup_insert_ne.
    + destruct (decide (k' = k)) as [->|Hkk].
      * rewrite list_lookup_insert_eq in Hk' by (by eapply lookup_lt_Some).
        injection Hk' as <-. rewrite list_lookup_insert_ne by done.
        apply Hfalse. apply list_elem_of_lookup. by exists k.
      * rewrite list_lookup_insert_ne in Hk' by done.
        apply Hfalse. apply list_elem_of_lookup. by exists k'.
Qed.

(** C2.  On a non-empty list of boolean arrays of one length [n],
    [create_basic_flag_mask] returns an array of length [n] that is true
    at [i] exactly when every input array is false at [i].  One all-false
    array of length 5 gives the all-true array, and setting one element of
    one input array to true at position [i] changes the result at position
    [i] only, where it becomes false. *)
Theorem create_basic_flag_mask_spec (flags : list ndarray) (n : nat) :
  flags ≠ [] →
  Forall (λ flag, length flag = n) flags →
  ∃ out : ndarray,
    create_basic_flag_mask flags = Ok out
    ∧ length out = n
    ∧ (∀ i, i < n →
         out !! i = Some true ↔ ∀ flag, flag ∈ flags → flag !! i = Some false)
    ∧ create_basic_flag_mask [replicate 5 false] = Ok (replicate 5 true)
    ∧ (∀ i, i < 5 →
         create_basic_flag_mask [<[i := true]> (replicate 5 false)]
         = Ok (<[i := false]> (replicate 5 true)))
    ∧ (∀ k i flag, flags !! k = Some flag → i < n →
         create_basic_flag_mask (<[k := <[i := true]> flag]> flags)
         = Ok (<[i := false]> out)).
Proof.
  intros Hne Hall. exists (foldl mask_step (ones n) flags).
  assert (length (ones n) = n) as Hones.
  { unfold ones. by rewrite length_replicate. }
  split; [by apply mask_equal_length|].
  split; [rewrite length_foldl_mask_step; by rewrite ?Hones|].
  split.
  { intros i Hi. rewrite lookup_foldl_mask_step, lookup_ones by done.
    intuition. }
  split; [done|].
  split.
  { intros i Hi. do 5 (destruct i as [|i]; [done|]). lia. }
  intros k i flag Hk Hi.
  rewrite (mask_equal_length _ n).
  - f_equal. by apply mask_set_flag.
  - intros Hnil. apply (f_equal length) in Hnil.
    rewrite length_insert in Hnil. by destruct flags.
  - apply Forall_insert; [done|]. rewrite length_insert.
    rewrite Forall_lookup in Hall. by apply (Hall k).
Qed.

Lemma create_basic_flag_mask_spec_witness :
  ∃ out : ndarray,
    create_basic_flag_mask [[false; true; false]; [false; false; true]] = Ok out
    ∧ length out = 3
    ∧ (∀ i, i < 3 →
         out !! i = Some true
         ↔ ∀ flag, flag ∈ [[false; true; false]; [false; false; true]] →
                   flag !! i = Some false)
    ∧ create_basic_flag_mask [replicate 5 false] = Ok (replicate 5 true)
    ∧ (∀ i, i < 5 →
         create_basic_flag_mask [<[i := true]> (replicate 5 false)]
         = Ok (<[i := false]> (replicate 5 true)))
    ∧ (∀ k i flag,
         [[false; true; false]; [false; false; true]] !! k = Some flag →
         i < 3 →
         create_basic_flag_mask
           (<[k := <[i := true]> flag]>
              [[false; true; false]; [false; false; true]])
         = Ok (<[i := false]> out)).
Proof.
  apply (create_basic_flag_mask_spec
           [[false; true; false]; [false; false; true]] 3).
  - discriminate.
  - repeat constructor.
Defined.

Example flag_mask_two_arrays :
  create_basic_flag_mask [[false; true; false]; [false; false; true]]
  = Ok [true; false; false].
Proof. reflexivity. Qed.








End flag_mask.

Section py_dict.
Context {V : Type}.

Lemma py_dict_list_to_map (pairs : list (string * V)) :
  py_dict pairs = list_to_map (reverse pairs).
Proof.
  unfold py_dict.
  assert (∀ (l : list (string * V)) (d : gmap string V),
            foldl (λ d kv, <[kv.1 := kv.2]> d) d l
            = foldr (λ kv d, <[kv.1 := kv.2]> d) d (reverse l)) as Hfold.
  { induction l as [|[k v] l IH]; intros d; [done|].
    rewrite reverse_cons, foldr_app. simpl. apply IH. }
  rewrite Hfold. unfold list_to_map.
  induction (reverse pairs) as [|[k v] l IH]; [done|].
  simpl. by rewrite IH.
Qed.

Lemma py_dict_lookup (pairs : list (string * V)) (k : string) (v : V) :
  NoDup pairs.*1 → (k, v) ∈ pairs → py_dict pairs !! k = Some v.
Proof.
  intros Hnodup Hin. rewrite py_dict_list_to_map.
  apply elem_of_list_to_map_1.
  - by rewrite fmap_reverse, reverse_Permutation.
  - by apply elem_of_reverse.
Qed.

End py_dict.

Section truth_reader.
Import Truth.
Context {row : Type}.
Implicit Types (env : environment row) (kw : kwargs)
  (self : DC2Truth22CatalogReader row) (g : getter row).

(** *** The dtype table *)

Lemma type_dict_lookup_other (declared : string) :
  declared ∉ ["BIGINT"; "INT"; "FLOAT"; "DOUBLE"] →
  type_dict !! declared = None.
Proof.
  intros Hnot. unfold type_dict.
  rewrite !lookup_insert_ne, lookup_empty; [done|..];
    intros <-; apply Hnot; repeat constructor.
Qed.

Lemma canonical_dtype_table :
  canonical_dtype "BIGINT" = "int64"
  ∧ canonical_dtype "INT" = "int32"
  ∧ canonical_dtype "FLOAT" = "float32"
  ∧ canonical_dtype "DOUBLE" = "float64".
Proof. by vm_compute. Qed.

Lemma canonical_dtype_other (declared : string) :
  declared ∉ ["BIGINT"; "INT"; "FLOAT"; "DOUBLE"] →
  canonical_dtype declared = declared.
Proof.
  intros Hnot. unfold canonical_dtype.
  by rewrite type_dict_lookup_other.
Qed.

(** The loop over the items, started on any dict [d] and run over a list of
    items with distinct keys. *)
Lemma rewrite_loop_lookup (items : list (string * string))
    (d : gmap string string) (k : string) :
  NoDup items.*1 →
  foldl (λ d kv, match type_dict !! kv.2 with
                 | Some t => <[kv.1 := t]> d
                 | None => d
                 end) d items !! k
  = match (list_to_map items : gmap string string) !! k with
    | Some v => match type_dict !! v with
                | Some t => Some t
                | None => d !! k
                end
    | None => d !! k
    end.
Proof.
  revert d. induction items as [|[k0 v0] items IH]; intros d Hnodup.
  { simpl. by rewrite lookup_empty. }
  apply NoDup_cons in Hnodup as [Hk0 Hnodup]. simpl.
  rewrite IH by done. destruct (decide (k = k0)) as [->|Hne].
  - rewrite lookup_insert_eq.
    assert ((list_to_map items : gmap string string) !! k0 = None) as ->.
    { by apply not_elem_of_list_to_map_1. }
    destruct (type_dict !! v0); [by rewrite lookup_insert_eq|done].
  - rewrite (lookup_insert_ne _ k0 k) by done.
    destruct (list_to_map items !! k) as [v|];
      destruct (type_dict !! v0); rewrite ?lookup_insert_ne by done; done.
Qed.

Lemma rewrite_dtypes_fmap (dtypes : gmap string string) :
  rewrite_dtypes dtypes = canonical_dtype <$> dtypes.
Proof.
  apply map_eq. intros k. unfold rewrite_dtypes.
  rewrite rewrite_loop_lookup by apply NoDup_fst_map_to_list.
  rewrite list_to_map_to_list, lookup_fmap. unfold canonical_dtype.
  destruct (dtypes !! k) as [v|] eqn:Hk; simpl; [|done].
  by destruct (type_dict !! v).
Qed.

(** *** Construction *)

Lemma _subclass_init_inv env kw self :
  _subclass_init env kw = Ok self →
  ∃ filename results,
    kw_filename kw = Some filename
    ∧ _table_name self = default "truth" (kw_table_name kw)
    ∧ _conn self = env_connect env filename
    ∧ db_table_info (_conn self) (pragma_table_info (_table_name self))
      = Ok results
    ∧ _native_quantity_dtypes self
      = canonical_dtype <$> py_dict ((λ t, (ti_name t, ti_type t)) <$> results)
    ∧ base_filters self
      = match default PyNone (kw_base_filters kw) with
        | PyNone => []
        | PyStr s => if String.eqb s "" then [] else [s]
        | PySeq items => items
        end.
Proof.
  unfold _subclass_init. intros Hinit.
  destruct (kw_filename kw) as [filename|]; [simpl in Hinit|done].
  destruct (env_isfile env filename); [simpl in Hinit|done].
  destruct (match kw_md5 kw with Some _ => _ | None => _ end); [done|].
  destruct (match default true (kw_is_static kw) with true => _ | false => _ end)
    as [descriptions|]; [simpl in Hinit|done].
  destruct (db_table_info _ _) as [results|] eqn:Hinfo; [simpl in Hinit|done].
  injection Hinit as <-. simpl. exists filename, results.
  do 4 (split; [done|]). split.
  - apply rewrite_dtypes_fmap.
  - destruct (default PyNone (kw_base_filters kw)) as [|s|[|? ?]]; simpl;
      try done. by destruct (String.eqb s "").
Qed.

Lemma _subclass_init_ok env kw filename results :
  kw_filename kw = Some filename →
  env_isfile env filename = true →
  match kw_md5 kw with
  | Some sum => sum = "" ∨ env_md5 env filename = sum
  | None => True
  end →
  (default true (kw_is_static kw) = true →
   ∃ rows, db_column_descriptions (env_connect env filename)
             "SELECT name, description FROM column_descriptions;" = Ok rows) →
  db_table_info (env_connect env filename)
    (pragma_table_info (default "truth" (kw_table_name kw))) = Ok results →
  ∃ self, _subclass_init env kw = Ok self.
Proof.
  intros Hfile Hisfile Hmd5 Hdesc Hinfo. unfold _subclass_init.
  rewrite Hfile. simpl. rewrite Hisfile. simpl.
  assert (match kw_md5 kw with
          | Some sum => negb (String.eqb sum "")
                        && negb (String.eqb (env_md5 env filename) sum)
          | None => false
          end = false) as ->.
  { destruct (kw_md5 kw) as [sum|]; [|done].
    destruct Hmd5 as [->| <-]; [done|].
    rewrite String.eqb_refl. apply andb_false_r. }
  destruct (default true (kw_is_static kw)).
  - destruct Hdesc as [rows ->]; [done|]. simpl.
    rewrite Hinfo. simpl. eauto.
  - simpl. rewrite Hinfo. simpl. eauto.
Qed.

Lemma dtype_of_declared_column self (results : list table_info_row)
    (t : table_info_row) :
  _native_quantity_dtypes self
  = canonical_dtype <$> py_dict ((λ t, (ti_name t, ti_type t)) <$> results) →
  NoDup (ti_name <$> results) →
  t ∈ results →
  _native_quantity_dtypes self !! ti_name t = Some (canonical_dtype (ti_type t)).
Proof.
  intros -> Hnodup Hin. rewrite lookup_fmap.
  rewrite (py_dict_lookup _ (ti_name t) (ti_type t)); [done| |].
  - by rewrite <- list_fmap_compose.
  - apply list_elem_of_fmap. by exists t.
Qed.

(** C9.  Construction succeeds whatever the declared types are, and the
    dtype table holds, for a column declared BIGINT, INT, FLOAT or DOUBLE,
    int64, int32, float32 or float64, and for a column declared with any
    other type that declared type unchanged. *)
Theorem declared_types_rewritten env kw filename
    (results : list table_info_row) :
  kw_filename kw = Some filename →
  env_isfile env filename = true →
  match kw_md5 kw with
  | Some sum => sum = "" ∨ env_md5 env filename = sum
  | None => True
  end →
  (default true (kw_is_static kw) = true →
   ∃ rows, db_column_descriptions (env_connect env filename)
             "SELECT name, description FROM column_descriptions;" = Ok rows) →
  db_table_info (env_connect env filename)
    (pragma_table_info (default "truth" (kw_table_name kw))) = Ok results →
  NoDup (ti_name <$> results) →
  ∃ self,
    _subclass_init env kw = Ok self
    ∧ ∀ t, t ∈ results →
        (ti_type t = "BIGINT" →
         _native_quantity_dtypes self !! ti_name t = Some "int64")
        ∧ (ti_type t = "INT" →
           _native_quantity_dtypes self !! ti_name t = Some "int32")
        ∧ (ti_type t = "FLOAT" →
           _native_quantity_dtypes self !! ti_name t = Some "float32")
        ∧ (ti_type t = "DOUBLE" →
           _native_quantity_dtypes self !! ti_name t = Some "float64")
        ∧ (ti_type t ∉ ["BIGINT"; "INT"; "FLOAT"; "DOUBLE"] →
           _native_quantity_dtypes self !! ti_name t = Some (ti_type t)).
Proof.
  intros Hfile Hisfile Hmd5 Hdesc Hinfo Hnodup.
  destruct (_subclass_init_ok env kw filename results) as [self Hinit];
    try done.
  exists self. split; [done|]. intros t Hin.
  destruct (_subclass_init_inv env kw self Hinit)
    as (filename' & results' & Hfile' & Htable & Hconn & Hinfo' & Hdtypes & _).
  assert (filename' = filename) as -> by congruence.
  rewrite Hconn, Htable, Hinfo in Hinfo'. injection Hinfo' as <-.
  pose proof (dtype_of_declared_column self results t Hdtypes Hnodup Hin)
    as Hlookup.
  destruct canonical_dtype_table as (Hbig & Hint & Hfloat & Hdouble).
  repeat split; intros Hty; rewrite Hlookup, ?Hty; f_equal; try done.
  by apply canonical_dtype_other.
Qed.

(** *** Queries *)

Lemma getter_executes g (quantities : list string) (executed : list string)
    (dtype : list (string * string)) :
  record_dtype (_native_quantity_dtypes (g_self g)) quantities = Ok dtype →
  dc2_truth_native_quantity_getter g quantities executed
  = (match db_select (_conn (g_self g)) (select_statement g quantities) with
     | Ok rows => Ok {| sa_dtype := dtype; sa_rows := rows |}
     | Err e => Err e
     end,
     (executed ++ [select_statement g quantities])%list).
Proof.
  intros Hdtype. unfold dc2_truth_native_quantity_getter. rewrite Hdtype.
  by destruct (db_select _ _).
Qed.


(** C10.  A [base_filters] argument that is one non-empty string becomes
    the one-element tuple of that string, which is one parenthesized
    predicate of the WHERE clause; a missing, [None] or empty argument
    becomes the empty tuple; and with empty base filters and no filters
    given to the iteration the statement has no WHERE clause. *)
Theorem base_filters_wrapped env kw self :
  _subclass_init env kw = Ok self →
  (∀ s, kw_base_filters kw = Some (PyStr s) → s ≠ "" →
     base_filters self = [s]
     ∧ ∃ g, _iter_native_dataset self None = [g]
            ∧ g_query_where_clause g = "WHERE (" ++ s ++ ")")
  ∧ (kw_base_filters kw = None ∨ kw_base_filters kw = Some PyNone
     ∨ kw_base_filters kw = Some (PyStr "")
     ∨ kw_base_filters kw = Some (PySeq []) →
     base_filters self = [])
  ∧ (base_filters self = [] →
     ∃ g, _iter_native_dataset self None = [g]
          ∧ g_query_where_clause g = ""
          ∧ ∀ (quantities : list string) (executed : list string)
              (dtype : list (string * string)),
              record_dtype (_native_quantity_dtypes self) quantities
              = Ok dtype →
              (dc2_truth_native_quantity_getter g quantities executed).2
              = (executed
                 ++ [("SELECT " ++ join ", " quantities ++ " FROM "
                      ++ _table_name self ++ " ;")%string])%list).
Proof.
  intros Hinit.
  destruct (_subclass_init_inv env kw self Hinit)
    as (filename & results & _ & _ & _ & _ & _ & Hbase).
  split; [|split].
  - intros s Hkw Hs. rewrite Hkw in Hbase. simpl in Hbase.
    assert (String.eqb s "" = false) as Heqb by (by apply String.eqb_neq).
    rewrite Heqb in Hbase. split; [done|].
    eexists. split; [reflexivity|]. rewrite Hbase. simpl. reflexivity.
  - intros [Hkw|[Hkw|[Hkw|Hkw]]]; by rewrite Hkw in Hbase.
  - intros Hempty. eexists. split; [reflexivity|]. rewrite Hempty. simpl.
    split; [done|]. intros quantities executed dtype Hdtype.
    erewrite getter_executes by exact Hdtype. simpl. reflexivity.
Qed.

End truth_reader.

Section truth_reader_example.
Import Truth.

Lemma declared_types_rewritten_witness :
  ∃ self,
    _subclass_init TruthExample.env (TruthExample.kw None) = Ok self
    ∧ ∀ t, t ∈ TruthExample.columns →
        (ti_type t = "BIGINT" →
         _native_quantity_dtypes self !! ti_name t = Some "int64")
        ∧ (ti_type t = "INT" →
           _native_quantity_dtypes self !! ti_name t = Some "int32")
        ∧ (ti_type t = "FLOAT" →
           _native_quantity_dtypes self !! ti_name t = Some "float32")
        ∧ (ti_type t = "DOUBLE" →
           _native_quantity_dtypes self !! ti_name t = Some "float64")
        ∧ (ti_type t ∉ ["BIGINT"; "INT"; "FLOAT"; "DOUBLE"] →
           _native_quantity_dtypes self !! ti_name t = Some (ti_type t)).
Proof.
  apply (declared_types_rewritten
           TruthExample.env (TruthExample.kw None) "truth.db"
           TruthExample.columns).
  - reflexivity.
  - reflexivity.
  - exact I.
  - intros _. eexists. reflexivity.
  - reflexivity.
  - apply (bool_decide_unpack _). vm_compute. exact I.
Defined.


(** [tuple] would have split the string into its characters. *)
Example tuple_of_a_string : py_tuple (PyStr "x>0") = ["x"; ">"; "0"].
Proof. reflexivity. Qed.

Lemma base_filters_wrapped_witness :
  (∃ self g,
     _subclass_init TruthExample.env (TruthExample.kw (Some (PyStr "x>0")))
     = Ok self
     ∧ base_filters self = ["x>0"]
     ∧ _iter_native_dataset self None = [g]
     ∧ g_query_where_clause g = "WHERE (x>0)")
  ∧ (∃ self g,
       _subclass_init TruthExample.env (TruthExample.kw None) = Ok self
       ∧ base_filters self = []
       ∧ _iter_native_dataset self None = [g]
       ∧ g_query_where_clause g = ""
       ∧ (dc2_truth_native_quantity_getter g ["a"; "b"] []).2
         = ["SELECT a, b FROM truth ;"]).
Proof.
  split.
  - destruct (_subclass_init TruthExample.env
                (TruthExample.kw (Some (PyStr "x>0")))) as [self|e] eqn:Hinit;
      [|vm_compute in Hinit; discriminate].
    destruct (base_filters_wrapped _ _ self Hinit) as (Hstr & _ & _).
    destruct (Hstr "x>0") as (Hbase & g & Hiter & Hwhere);
      [reflexivity|discriminate|].
    by exists self, g.
  - destruct (_subclass_init TruthExample.env (TruthExample.kw None))
      as [self|e] eqn:Hinit; [|vm_compute in Hinit; discriminate].
    assert (_table_name self = "truth"
            ∧ record_dtype (_native_quantity_dtypes self) ["a"; "b"]
              = Ok [("a", "int64"); ("b", "float64")]) as [Htable Hdtype].
    { vm_compute in Hinit. injection Hinit as <-. by split. }
    destruct (base_filters_wrapped _ _ self Hinit) as (_ & Hnone & Hquery).
    assert (base_filters self = []) as Hbase by (apply Hnone; by left).
    destruct (Hquery Hbase) as (g & Hiter & Hwhere & Hlog).
    exists self, g. repeat (split; [done|]).
    rewrite (Hlog ["a"; "b"] [] _ Hdtype), Htable. reflexivity.
Defined.

End truth_reader_example.

Section strings.

Lemma substring_all (s : string) : substring 0 (String.length s) s = s.
Proof. induction s as [|c s IH]; simpl; [done|]. by rewrite IH. Qed.

Lemma substring_append_r (p suffix : string) :
  substring (String.length p) (String.length suffix) (p ++ suffix) = suffix.
Proof. induction p as [|c p IH]; simpl; [apply substring_all|done]. Qed.

Lemma substring_split (s : string) (n : nat) :
  (n ≤ String.length s)%nat →
  s = substring 0 n s ++ substring n (String.length s - n) s.
Proof.
  revert n. induction s as [|c s IH]; intros [|n] Hn; simpl in *.
  - done.
  - lia.
  - by rewrite substring_all.
  - change (String c s
            = String c (substring 0 n s
                        ++ substring n (String.length s - n) s)).
    f_equal. apply IH. lia.
Qed.

Lemma string_length_append (a b : string) :
  String.length (a ++ b) = (String.length a + String.length b)%nat.
Proof. induction a as [|c a IH]; simpl; [done|]. by rewrite <- IH. Qed.

Lemma endswith_spec (s suffix : string) :
  endswith s suffix = true ↔ ∃ p, s = p ++ suffix.
Proof.
  unfold endswith. rewrite andb_true_iff, Nat.leb_le, String.eqb_eq. split.
  - intros [Hlen Hsub].
    exists (substring 0 (String.length s - String.length suffix) s).
    etransitivity;
      [apply (substring_split s (String.length s - String.length suffix));
       lia|].
    f_equal. etransitivity; [|exact Hsub]. f_equal. lia.
  - intros [p ->]. rewrite string_length_append. split; [lia|].
    replace (String.length p + String.length suffix - String.length suffix)
      with (String.length p) by lia.
    apply substring_append_r.
Qed.

End strings.

Section dm_catalog.
Import DM.
Context {cell : Type}.
Implicit Types (self : DC2DMCatalog cell) (w : world cell)
  (dataset : ParquetFile cell) (rest : list (ParquetFile cell)).

(** *** The monad *)

Lemma bind_ok {A B : Type} (m : M cell A) (k : A → M cell B) w (a : A) w1 :
  m w = (Ok a, w1) → bind m k w = k a w1.
Proof. intros Hm. unfold bind. by rewrite Hm. Qed.

Lemma bind_err {A B : Type} (m : M cell A) (k : A → M cell B) w (e : exn) w1 :
  m w = (Err e, w1) → bind m k w = (Err e, w1).
Proof. intros Hm. unfold bind. by rewrite Hm. Qed.

Lemma bind_inv {A B : Type} (m : M cell A) (k : A → M cell B) w (b : B) w' :
  bind m k w = (Ok b, w') →
  ∃ a w1, m w = (Ok a, w1) ∧ k a w1 = (Ok b, w').
Proof.
  unfold bind. destruct (m w) as [[a|e] w1]; [eauto|done].
Qed.

Lemma for_eachM_inv {A S : Type} (P : S → Prop) (body : S → A → M cell S)
    (xs : list A) (s : S) w (s' : S) w' :
  (∀ s x w s' w', P s → body s x w = (Ok s', w') → P s') →
  P s →
  for_eachM body xs s w = (Ok s', w') →
  P s'.
Proof.
  intros Hbody. revert s w. induction xs as [|x xs IH]; intros s w Hs.
  - by intros [= <- <-].
  - simpl. intros Hrun.
    apply bind_inv in Hrun as (s1 & w1 & Hstep & Hrun).
    eapply IH; [|exact Hrun]. by eapply Hbody.
Qed.

(** *** Construction *)

Lemma _generate_datasets_config self w
    (datasets : list (ParquetFile cell)) self' w' :
  _generate_datasets self w = (Ok (datasets, self'), w') →
  self' = set_file_handles (_file_handles self') self.
Proof.
  unfold _generate_datasets. intros Hrun.
  apply bind_inv in Hrun as (names & w1 & _ & Hrun).
  apply (for_eachM_inv
           (λ s, s.2 = set_file_handles (_file_handles s.2) self)) in Hrun;
    [done| |by destruct self].
  clear. intros [datasets self1] fname w [datasets' self2] w2 Hinv. simpl in *.
  destruct (_filename_re self1 fname); simpl.
  - unfold try_except_OSError, _open_parquet.
    destruct (_file_handles self1 !! _) as [handle|].
    + intros [= <- <- <-]. done.
    + unfold bind at 1 2. destruct (pq_ParquetFile _ w) as [[handle|e] w3].
      * intros [= <- <- <-]. simpl.
        generalize (<[path_join (base_dir self1) fname := handle]>
                      (_file_handles self1)).
        intros handles. by rewrite Hinv.
      * destruct e; try done. intros [= <- <- <-]. done.
  - intros [= <- <- <-]. done.
Qed.

Lemma load_declared_schema w (schema_path : string)
    (schema : option (gmap string schema_entry)) w1 :
  bind (isfile schema_path)
    (λ schema_is_file,
       if negb (String.eqb schema_path "") && schema_is_file
       then _generate_schema_from_yaml schema_path
       else ret None) w = (Ok schema, w1) →
  schema = declared_schema w schema_path.
Proof.
  unfold bind at 1, isfile, declared_schema.
  destruct (String.eqb schema_path ""); simpl.
  { by intros [= <- <-]. }
  destruct (fs_files (w_fs w) !! schema_path) as [f|] eqn:Hfile.
  - rewrite bool_decide_true by eauto.
    unfold _generate_schema_from_yaml, bind. rewrite Hfile.
    destruct f as [doc|doc|data| |]; try done.
    destruct doc; by intros [= <- <-].
  - rewrite bool_decide_false by (by intros [? ?]).
    by intros [= <- <-].
Qed.

Lemma dm_subclass_init_inv (FILE_DIR : string)
    (generate_modifiers : nat → gmap string (option string))
    (kw : kwargs) w self w' :
  _subclass_init FILE_DIR generate_modifiers kw w = (Ok self, w') →
  ∃ base,
    kw_base_dir kw = Some base
    ∧ base_dir self = base
    ∧ _schema_path self
      = path_join base (default SCHEMA_FILENAME (kw_schema_filename kw))
    ∧ _datasets self ≠ []
    ∧ _schema self
      = Some (if schema_is_falsy (declared_schema w (_schema_path self))
              then _generate_schema_from_datafiles (_datasets self)
              else default ∅ (declared_schema w (_schema_path self)))
    ∧ (default false (kw_is_dpdd kw) = false →
       _quantity_modifiers self
       = generate_modifiers (dm_schema_version (_schema self))).
Proof.
  unfold _subclass_init. intros Hinit.
  destruct (kw_base_dir kw) as [base|]; [|done].
  apply bind_inv in Hinit as (base' & w0 & [= <- <-] & Hinit).
  apply bind_inv in Hinit as (base_is_dir & w0 & [= <- <-] & Hinit).
  destruct (negb _); [done|].
  set (schema_path := path_join base _) in *.
  apply bind_inv in Hinit as (schema_is_file & w0 & [= <- <-] & Hinit).
  apply bind_inv in Hinit as (schema & w1 & Hload & Hinit).
  assert (schema = declared_schema w schema_path) as Hschema.
  { apply (load_declared_schema w schema_path schema w1).
    unfold bind at 1. unfold isfile at 1. exact Hload. }
  apply bind_inv in Hinit as ([datasets self1] & w2 & Hdatasets & Hinit).
  apply _generate_datasets_config in Hdatasets as Hconfig.
  cbn [_datasets set_datasets] in Hinit.
  destruct datasets as [|d ds]; [done|].
  remember (d :: ds) as datasets eqn:Hds.
  apply bind_inv in Hinit as (self2 & w3 & Hfallback & Hinit).
  apply bind_inv in Hinit as (info & w4 & _ & [= <- <-]).
  assert (_schema self1 = schema) as Hschema1 by (by rewrite Hconfig).
  assert (base_dir self2 = base
          ∧ _schema_path self2 = schema_path
          ∧ _datasets self2 = datasets
          ∧ _schema self2
            = Some (if schema_is_falsy schema
                    then _generate_schema_from_datafiles datasets
                    else default ∅ schema)) as (Hb & Hp & Hd & Hs).
  { simpl in Hfallback. rewrite Hschema1 in Hfallback.
    destruct (schema_is_falsy schema) eqn:Hfalsy.
    - apply bind_inv in Hfallback as ([] & w5 & _ & [= <- <-]).
      simpl. rewrite Hconfig. done.
    - injection Hfallback as <- <-. simpl. rewrite Hconfig. simpl.
      repeat split. destruct schema; [done|]. done. }
  exists base. simpl. rewrite Hb, Hp, Hd, Hs, <- Hschema.
  repeat split; try done.
  - by rewrite Hds.
  - by intros ->.
Qed.

Lemma load_declared_schema_ok w (schema_path : string) :
  schema_file_loads w schema_path →
  ∃ schema w1,
    bind (isfile schema_path)
      (λ schema_is_file,
         if negb (String.eqb schema_path "") && schema_is_file
         then _generate_schema_from_yaml schema_path
         else ret None) w = (Ok schema, w1)
    ∧ w_fs w1 = w_fs w.
Proof.
  unfold schema_file_loads, bind at 1, isfile. intros Hloads.
  destruct (String.eqb schema_path ""); simpl; [by eexists _, _|].
  destruct (fs_files (w_fs w) !! schema_path) as [f|] eqn:Hfile.
  - rewrite bool_decide_true by eauto.
    unfold _generate_schema_from_yaml, bind. rewrite Hfile.
    destruct f as [doc|doc|data| |]; try done.
    destruct doc; by eexists _, _.
  - rewrite bool_decide_false by (by intros [? ?]). by eexists _, _.
Qed.

Lemma _generate_datasets_no_match self w (names : list string) :
  fs_dirs (w_fs w) !! base_dir self = Some names →
  Forall (λ fname, _filename_re self fname = false) names →
  _generate_datasets self w = (Ok ([], self), w).
Proof.
  intros Hdir Hnames. unfold _generate_datasets.
  rewrite (bind_ok _ _ w names w) by (unfold listdir; by rewrite Hdir).
  assert (Forall (λ fname, _filename_re self fname = false) (sorted names))
    as Hsorted.
  { unfold sorted. by rewrite merge_sort_Permutation. }
  induction Hsorted as [|fname rest Hfname _ IH]; [done|].
  simpl. rewrite Hfname. simpl. unfold bind at 1. simpl. apply IH.
Qed.

#[local] Instance str_le_total : Total str_le.
Proof. intros a b. apply String.leb_total. Qed.




(** *** Schema version *)

Lemma existsb_schema_columns (p : string → bool)
    (schema : gmap string schema_entry) :
  existsb p (schema_columns (Some schema)) = true
  ↔ ∃ col, is_Some (schema !! col) ∧ p col = true.
Proof.
  unfold schema_columns. simpl. rewrite existsb_exists. split.
  - intros (col & Hin & Hp). exists col. split; [|done].
    apply list_elem_of_In, list_elem_of_fmap in Hin as ([col' entry] & -> & Hin).
    apply elem_of_map_to_list in Hin. by exists entry.
  - intros (col & [entry Hlookup] & Hp). exists col. split; [|done].
    apply list_elem_of_In, list_elem_of_fmap. exists (col, entry).
    split; [done|]. by apply elem_of_map_to_list.
Qed.

Lemma dm_schema_version_cases (schema : gmap string schema_entry) :
  ((∃ col p, is_Some (schema !! col) ∧ col = p ++ "_fluxSigma") →
   dm_schema_version (Some schema) = 1)
  ∧ ((∀ col p, is_Some (schema !! col) → col ≠ p ++ "_fluxSigma") →
     (∃ col p, is_Some (schema !! col) ∧ col = p ++ "_fluxErr") →
     dm_schema_version (Some schema) = 2)
  ∧ ((∀ col p, is_Some (schema !! col) →
        col ≠ p ++ "_fluxSigma" ∧ col ≠ p ++ "_fluxErr") →
     dm_schema_version (Some schema) = 3).
Proof.
  unfold dm_schema_version.
  destruct (existsb (λ col, endswith col "_fluxSigma") _) eqn:Hsigma;
    [|destruct (existsb (λ col, endswith col "_fluxErr") _) eqn:Herr].
  - apply existsb_schema_columns in Hsigma as (col & Hcol & Hend).
    apply endswith_spec in Hend as [p Hp].
    split; [done|]. split.
    + intros Hno. by destruct (Hno col p Hcol).
    + intros Hno. by destruct (Hno col p Hcol) as [? _].
  - apply existsb_schema_columns in Herr as (col & Hcol & Hend).
    apply endswith_spec in Hend as [p Hp].
    split; [|split; [done|]].
    + intros (col' & p' & Hcol' & Hp').
      assert (existsb (λ col, endswith col "_fluxSigma")
                      (schema_columns (Some schema)) = true) as Habs.
      { apply existsb_schema_columns. exists col'. split; [done|].
        apply endswith_spec. by exists p'. }
      congruence.
    + intros Hno. by destruct (Hno col p Hcol) as [_ ?].
  - split; [|split; [|done]].
    + intros (col' & p' & Hcol' & Hp').
      assert (existsb (λ col, endswith col "_fluxSigma")
                      (schema_columns (Some schema)) = true) as Habs.
      { apply existsb_schema_columns. exists col'. split; [done|].
        apply endswith_spec. by exists p'. }
      congruence.
    + intros _ (col' & p' & Hcol' & Hp').
      assert (existsb (λ col, endswith col "_fluxErr")
                      (schema_columns (Some schema)) = true) as Habs.
      { apply existsb_schema_columns. exists col'. split; [done|].
        apply endswith_spec. by exists p'. }
      congruence.
Qed.

(** C5.  The version is 1 as soon as some column of the schema ends with
    [_fluxSigma], whatever other columns end with; 2 when none does and
    some column ends with [_fluxErr]; 3 when no column ends with either.
    It is the version the constructor hands to [_generate_modifiers]
    unless the catalog is declared to be in DPDD format. *)
Theorem schema_version_priority (schema : gmap string schema_entry) :
  ((∃ col p, is_Some (schema !! col) ∧ col = p ++ "_fluxSigma") →
   dm_schema_version (Some schema) = 1)
  ∧ ((∀ col p, is_Some (schema !! col) → col ≠ p ++ "_fluxSigma") →
     (∃ col p, is_Some (schema !! col) ∧ col = p ++ "_fluxErr") →
     dm_schema_version (Some schema) = 2)
  ∧ ((∀ col p, is_Some (schema !! col) →
        col ≠ p ++ "_fluxSigma" ∧ col ≠ p ++ "_fluxErr") →
     dm_schema_version (Some schema) = 3)
  ∧ (∀ (FILE_DIR : string)
       (generate_modifiers : nat → gmap string (option string))
       (kw : kwargs) w self w',
       _subclass_init FILE_DIR generate_modifiers kw w = (Ok self, w') →
       default false (kw_is_dpdd kw) = false →
       _quantity_modifiers self
       = generate_modifiers (dm_schema_version (_schema self))).
Proof.
  destruct (dm_schema_version_cases schema) as (Hlegacy & Hmiddle & Hnewest).
  repeat split; try done.
  intros FILE_DIR generate_modifiers kw w self w' Hinit Hdpdd.
  destruct (dm_subclass_init_inv _ _ _ _ _ _ Hinit)
    as (base & _ & _ & _ & _ & _ & Hmodifiers).
  by apply Hmodifiers.
Qed.

(** *** Failures of construction *)

(** C4, as the code has it.  Construction raises [ValueError] when
    [base_dir] is not a directory, and [RuntimeError] when it is one, the
    schema file (if any) loads, and no name in it matches the pattern.
    When it succeeds there is at least one dataset, and the schema is the
    declared one if that is not empty and otherwise whatever the datasets
    give, with no check that this is not empty. *)
Theorem construction_failures (FILE_DIR : string)
    (generate_modifiers : nat → gmap string (option string))
    (kw : kwargs) w (base : string) :
  kw_base_dir kw = Some base →
  (base = "" ∨ fs_dirs (w_fs w) !! base = None →
   _subclass_init FILE_DIR generate_modifiers kw w
   = (Err (ValueError ("`base_dir` " ++ base ++ " is not a valid directory")),
      w))
  ∧ (∀ names,
       base ≠ "" →
       fs_dirs (w_fs w) !! base = Some names →
       schema_file_loads w
         (path_join base (default SCHEMA_FILENAME (kw_schema_filename kw))) →
       Forall (λ fname,
                 default FILE_PATTERN (kw_filename_pattern kw) fname = false)
              names →
       ∃ w',
         _subclass_init FILE_DIR generate_modifiers kw w
         = (Err (RuntimeError ("No catalogs were found in `base_dir` "
                               ++ base)), w'))
  ∧ (∀ self w',
       _subclass_init FILE_DIR generate_modifiers kw w = (Ok self, w') →
       _datasets self ≠ []
       ∧ _schema self
         = Some (if schema_is_falsy (declared_schema w (_schema_path self))
                 then _generate_schema_from_datafiles (_datasets self)
                 else default ∅ (declared_schema w (_schema_path self)))).
Proof.
  intros Hbase. split; [|split].
  - intros Hnodir. unfold _subclass_init. rewrite Hbase.
    rewrite (bind_ok _ _ w base w eq_refl).
    rewrite (bind_ok _ _ w false w); [done|].
    unfold isdir. destruct Hnodir as [->|Hnone]; [done|].
    rewrite Hnone, bool_decide_false by (by intros [? ?]).
    by rewrite andb_false_r.
  - intros names Hne Hdir Hloads Hnames. unfold _subclass_init. rewrite Hbase.
    rewrite (bind_ok _ _ w base w eq_refl).
    rewrite (bind_ok _ _ w true w).
    2:{ unfold isdir. apply String.eqb_neq in Hne. rewrite Hne, Hdir.
        rewrite bool_decide_true by eauto. done. }
    simpl.
    destruct (load_declared_schema_ok w _ Hloads) as (schema & w1 & Hload & Hfs).
    unfold bind at 1 in Hload. unfold bind at 1.
    destruct (isfile _ w) as [[schema_is_file|e] w0]; [|done].
    rewrite (bind_ok _ _ _ _ _ Hload).
    erewrite bind_ok.
    2:{ apply (_generate_datasets_no_match _ w1 names); simpl.
        - by rewrite Hfs.
        - done. }
    simpl. eauto.
  - intros self w' Hinit.
    destruct (dm_subclass_init_inv _ _ _ _ _ _ Hinit)
      as (base' & _ & _ & _ & Hdatasets & Hschema & _).
    done.
Qed.

(** *** The handle cache *)

Lemma _open_parquet_allocated self w (path : string) handle self' w' :
  handles_allocated self w →
  _open_parquet self path w = (Ok (handle, self'), w') →
  handles_allocated self' w'
  ∧ pf_id handle < w_next_id w'
  ∧ (w_next_id w ≤ w_next_id w')%nat
  ∧ w_fs w' = w_fs w
  ∧ _file_handles self' !! path = Some handle.
Proof.
  intros Hinv. unfold _open_parquet.
  destruct (_file_handles self !! path) as [cached|] eqn:Hcached.
  - intros [= <- <- <-]. repeat split; eauto.
  - unfold bind, pq_ParquetFile, ret.
    destruct (fs_files (w_fs w) !! path) as [[| |data| |]|]; try done.
    intros [= <- <- <-]. simpl. repeat split; try lia.
    + intros path' handle'. simpl.
      destruct (decide (path = path')) as [<-|Hne].
      * rewrite lookup_insert_eq. intros [= <-]. simpl. lia.
      * rewrite lookup_insert_ne by done. intros Hin.
        specialize (Hinv _ _ Hin). lia.
    + apply lookup_insert_eq.
Qed.

Lemma close_all_file_handles_allocated self w :
  handles_allocated (close_all_file_handles self) w.
Proof. intros path handle. simpl. by rewrite lookup_empty. Qed.

Lemma for_eachM_inv_world {A S : Type} (P : S → world cell → Prop)
    (body : S → A → M cell S) (xs : list A) (s : S) w (s' : S) w' :
  (∀ s x w s' w', P s w → body s x w = (Ok s', w') → P s' w') →
  P s w →
  for_eachM body xs s w = (Ok s', w') →
  P s' w'.
Proof.
  intros Hbody. revert s w. induction xs as [|x xs IH]; intros s w Hs.
  - by intros [= <- <-].
  - simpl. intros Hrun.
    apply bind_inv in Hrun as (s1 & w1 & Hstep & Hrun).
    eapply IH; [|exact Hrun]. by eapply Hbody.
Qed.

Lemma for_eachM_same_world {A S : Type} (body : S → A → M cell S)
    (xs : list A) (s : S) w (r : result S) w' :
  (∀ s x w r w', body s x w = (r, w') → w' = w) →
  for_eachM body xs s w = (r, w') →
  w' = w.
Proof.
  intros Hbody. revert s. induction xs as [|x xs IH]; intros s.
  - by intros [= <- <-].
  - simpl. unfold bind. destruct (body s x w) as [[s1|e] w1] eqn:Hstep.
    + apply Hbody in Hstep as ->. apply IH.
    + apply Hbody in Hstep as ->. by intros [= <- <-].
Qed.

Lemma _generate_info_dict_same_world (meta_path : string) w
    (r : result (gmap string quantity_info)) w' :
  _generate_info_dict meta_path w = (r, w') → w' = w.
Proof.
  unfold _generate_info_dict, bind.
  destruct (fs_files (w_fs w) !! meta_path) as [[doc|doc|data| |]|];
    try (by intros [= <- <-]).
  apply for_eachM_same_world.
  intros info_dict [quantity info_list] w0 r0 w0'.
  destruct info_list as [|d [|u [|b [|q ?]]]]; by intros [= <- <-].
Qed.

Lemma _generate_datasets_allocated self w
    (datasets : list (ParquetFile cell)) self' w' :
  handles_allocated self w →
  _generate_datasets self w = (Ok (datasets, self'), w') →
  handles_allocated self' w'.
Proof.
  unfold _generate_datasets. intros Hinv Hrun.
  apply bind_inv in Hrun as (names & w1 & Hlist & Hrun).
  assert (w1 = w) as ->.
  { unfold listdir in Hlist. destruct (fs_dirs _ !! _); by injection Hlist. }
  apply (for_eachM_inv_world (λ s w, handles_allocated s.2 w)) in Hrun;
    [done| |done].
  clear. intros [datasets self1] fname w [datasets' self2] w2 Hinv. simpl in *.
  destruct (_filename_re self1 fname); simpl.
  - unfold try_except_OSError.
    destruct (bind (_open_parquet self1 _) _ w) as [[[ds df]|e] w3] eqn:Hopen.
    + intros [= <- <- <-].
      apply bind_inv in Hopen as ([handle self3] & w4 & Hopen & [= <- <- <-]).
      by apply (_open_parquet_allocated _ _ _ _ _ _ Hinv Hopen).
    + destruct e; try done. intros [= <- <- <-].
      assert (w3 = w) as ->; [|done].
      unfold bind, _open_parquet in Hopen.
      destruct (_file_handles self1 !! _); [done|].
      unfold bind, pq_ParquetFile in Hopen.
      destruct (fs_files (w_fs w) !! _) as [[doc|doc|data| |]|];
        by injection Hopen.
  - by intros [= <- <- <-].
Qed.

(** The constructor leaves an instance whose cached handles are all
    allocated. *)
Lemma _subclass_init_allocated (FILE_DIR : string)
    (generate_modifiers : nat → gmap string (option string))
    (kw : kwargs) w self w' :
  _subclass_init FILE_DIR generate_modifiers kw w = (Ok self, w') →
  handles_allocated self w'.
Proof.
  unfold _subclass_init. intros Hinit.
  destruct (kw_base_dir kw) as [base|]; [|done].
  apply bind_inv in Hinit as (base' & w0 & [= <- <-] & Hinit).
  apply bind_inv in Hinit as (base_is_dir & w0 & [= <- <-] & Hinit).
  destruct (negb _); [done|].
  apply bind_inv in Hinit as (schema_is_file & w0 & [= <- <-] & Hinit).
  apply bind_inv in Hinit as (schema & w1 & _ & Hinit).
  apply bind_inv in Hinit as ([datasets self1] & w2 & Hdatasets & Hinit).
  apply _generate_datasets_allocated in Hdatasets as Hinv1.
  2:{ intros path handle. simpl. by rewrite lookup_empty. }
  cbn [_datasets set_datasets] in Hinit.
  destruct datasets as [|d ds]; [done|].
  apply bind_inv in Hinit as (self2 & w3 & Hfallback & Hinit).
  apply bind_inv in Hinit as (info & w4 & Hinfo & [= <- <-]).
  apply _generate_info_dict_same_world in Hinfo as ->.
  assert (_file_handles self2 = _file_handles self1
          ∧ w_next_id w3 = w_next_id w2) as [Hhandles Hnext].
  { simpl in Hfallback. destruct (schema_is_falsy _).
    - apply bind_inv in Hfallback as ([] & w5 & [= <-] & [= <- <-]). done.
    - by injection Hfallback as <- <-. }
  intros path handle. simpl. rewrite Hhandles, Hnext. apply Hinv1.
Qed.

(** C8.  On a file that opens, [_open_parquet] returns a handle that a
    second call returns again, leaving the instance and the world as they
    are; [close_all_file_handles] empties the cache; and the next call
    builds a new handle, distinct from the first. *)
Theorem handle_cache self w (path : string)
    (data : list (string * column cell)) :
  handles_allocated self w →
  fs_files (w_fs w) !! path = Some (FileParquet data) →
  ∃ handle1 self1 w1,
    _open_parquet self path w = (Ok (handle1, self1), w1)
    ∧ _open_parquet self1 path w1 = (Ok (handle1, self1), w1)
    ∧ _file_handles (close_all_file_handles self1) = ∅
    ∧ ∃ handle2 self2 w2,
        _open_parquet (close_all_file_handles self1) path w1
        = (Ok (handle2, self2), w2)
        ∧ pf_id handle2 ≠ pf_id handle1
        ∧ handle2 ≠ handle1
        ∧ _file_handles self2 !! path = Some handle2.
Proof.
  intros Hinv Hfile.
  assert (∃ handle1 self1 w1,
            _open_parquet self path w = (Ok (handle1, self1), w1))
    as (handle1 & self1 & w1 & Hopen1).
  { unfold _open_parquet. destruct (_file_handles self !! path); [by eauto|].
    unfold bind, pq_ParquetFile, ret. rewrite Hfile. eauto. }
  destruct (_open_parquet_allocated _ _ _ _ _ _ Hinv Hopen1)
    as (Hinv1 & Hid1 & _ & Hfs1 & Hcached1).
  exists handle1, self1, w1. split; [done|]. split.
  { unfold _open_parquet. by rewrite Hcached1. }
  split; [done|].
  unfold _open_parquet at 1. simpl. rewrite lookup_empty.
  unfold bind, pq_ParquetFile, ret. rewrite Hfs1, Hfile.
  eexists _, _, _. split; [done|]. simpl.
  assert (w_next_id w1 ≠ pf_id handle1) as Hne by lia.
  repeat split; [done| |apply lookup_insert_eq].
  intros <-. by apply Hne.
Qed.

(** *** Schema regeneration *)

Lemma isfile_present w (path : string) (f : file cell) :
  path ≠ "" → fs_files (w_fs w) !! path = Some f →
  isfile path w = (Ok true, w).
Proof.
  intros Hpath Hfile. unfold isfile.
  apply String.eqb_neq in Hpath. rewrite Hpath. simpl.
  rewrite bool_decide_true; [done|by rewrite Hfile].
Qed.

Lemma copyfile_ok w (src dst : string) (f : file cell) :
  fs_files (w_fs w) !! src = Some f → f ≠ FileUnreadable →
  copyfile src dst w
  = (Ok tt, add_events [CopyFile src dst] (write_file dst f w)).
Proof.
  intros Hsrc Hreadable. unfold copyfile.
  rewrite (bind_ok _ _ w f w) by (rewrite Hsrc; by destruct f).
  by rewrite (bind_ok _ _ w tt (write_file dst f w)).
Qed.

Lemma yaml_dump_to_ok w (path : string) (schema : gmap string schema_entry) :
  path ≠ "" → fs_dirs (w_fs w) !! path = None →
  yaml_dump_to path schema w
  = (Ok tt, add_events [WriteFile path]
              (write_file path (FileSchema (Some schema)) w)).
Proof.
  intros Hpath Hnodir. unfold yaml_dump_to.
  rewrite (bind_ok _ _ w false w).
  - apply String.eqb_neq in Hpath. rewrite Hpath. simpl.
    by rewrite (bind_ok _ _ w tt (write_file path (FileSchema (Some schema)) w)).
  - unfold isdir. rewrite Hnodir, bool_decide_false by (by intros [? ?]).
    by rewrite andb_false_r.
Qed.

Lemma backup_path_differs (path : string) : path ++ ".bak" ≠ path.
Proof.
  intros Heq. apply (f_equal String.length) in Heq.
  rewrite string_length_append in Heq. simpl in Heq. lia.
Qed.

(** C7.  With a file at the schema path, [generate_schema_yaml] without
    [overwrite] raises and changes nothing.  With [overwrite], once the
    file can be read, it first copies the file to the path with [.bak]
    appended and then writes the regenerated schema over it: afterwards
    the backup holds the previous content and the schema path the new
    one. *)
Theorem schema_regeneration_guard self w (previous : file cell) :
  _schema_path self ≠ "" →
  fs_files (w_fs w) !! _schema_path self = Some previous →
  (∃ msg, generate_schema_yaml self false w = (Err (RuntimeError msg), w))
  ∧ (previous ≠ FileUnreadable →
     fs_dirs (w_fs w) !! _schema_path self = None →
     ∃ w',
       generate_schema_yaml self true w = (Ok tt, w')
       ∧ w_events w'
         = (w_events w
            ++ [CopyFile (_schema_path self) (_schema_path self ++ ".bak");
                WriteFile (_schema_path self)])%list
       ∧ fs_files (w_fs w') !! (_schema_path self ++ ".bak") = Some previous
       ∧ fs_files (w_fs w') !! _schema_path self
         = Some (FileSchema
                   (Some (map_imap
                            (λ col schema_this,
                               Some (flag_default col schema_this))
                            (_generate_schema_from_datafiles
                               (_datasets self)))))).
Proof.
  intros Hpath Hfile.
  pose proof (isfile_present w _ _ Hpath Hfile) as Hisfile.
  assert (String.eqb (_schema_path self) "" = false) as Heqb
    by (by apply String.eqb_neq).
  split.
  - unfold generate_schema_yaml.
    rewrite (bind_ok _ _ _ _ _ Hisfile), Heqb. simpl.
    eexists. by apply bind_err.
  - intros Hreadable Hnodir. unfold generate_schema_yaml.
    rewrite (bind_ok _ _ _ _ _ Hisfile), Heqb. simpl.
    set (msg := "Overwriting schema file `" ++ _ ).
    erewrite bind_ok.
    2:{ erewrite bind_ok by reflexivity.
        apply copyfile_ok; [exact Hfile|exact Hreadable]. }
    rewrite yaml_dump_to_ok by done.
    eexists. split; [reflexivity|]. simpl.
    split; [by rewrite <- app_assoc|].
    split.
    + rewrite lookup_insert_ne by (symmetry; apply backup_path_differs).
      apply lookup_insert_eq.
    + apply lookup_insert_eq.
Qed.

(** *** Iteration *)







End dm_catalog.

Section dm_catalog_example.
Import DM DMExample.

Lemma schema_version_priority_witness :
  dm_schema_version (Some schema_mixed) = 1
  ∧ dm_schema_version
      (Some {["r_fluxErr" := {| se_dtype := "float64"; se_default := None |}]})
    = 2
  ∧ dm_schema_version
      (Some {["ra" := {| se_dtype := "float64"; se_default := None |}]})
    = 3
  ∧ ∃ self w',
      _subclass_init FILE_DIR modifiers_of kw world_mixed = (Ok self, w')
      ∧ _quantity_modifiers self
        = modifiers_of (dm_schema_version (_schema self)).
Proof.
  assert (∀ (s suffix : string), endswith s suffix = false →
            ∀ p, s ≠ p ++ suffix) as Hnot.
  { intros s suffix Hend p ->.
    assert (endswith (p ++ suffix) suffix = true) as Htrue
      by (apply endswith_spec; eauto).
    congruence. }
  split; [|split; [|split]].
  - apply (schema_version_priority (cell := Z)).
    exists "g_fluxSigma", "g". split; [|done].
    unfold schema_mixed. rewrite lookup_insert_eq. eauto.
  - apply (schema_version_priority (cell := Z)).
    + intros col p [entry Hcol]. apply lookup_singleton_Some in Hcol as [<- _].
      by apply Hnot.
    + exists "r_fluxErr", "r". split; [|done].
      rewrite lookup_singleton_eq. eauto.
  - apply (schema_version_priority (cell := Z)).
    intros col p [entry Hcol]. apply lookup_singleton_Some in Hcol as [<- _].
    split; by apply Hnot.
  - destruct (_subclass_init FILE_DIR modifiers_of kw world_mixed)
      as [[self|e] w'] eqn:Hinit; [|vm_compute in Hinit; discriminate].
    exists self, w'. split; [done|].
    destruct (schema_version_priority (cell := Z) ∅) as (_ & _ & _ & Hinit_version).
    by apply (Hinit_version FILE_DIR modifiers_of kw world_mixed self w').
Defined.



Lemma construction_failures_witness :
  _subclass_init FILE_DIR _generate_modifiers kw_missing world_none
  = (Err (ValueError "`base_dir` /nowhere is not a valid directory"),
     world_none)
  ∧ (∃ w',
       _subclass_init FILE_DIR _generate_modifiers kw world_none
       = (Err (RuntimeError "No catalogs were found in `base_dir` /data"), w'))
  ∧ (∃ self w',
       _subclass_init FILE_DIR _generate_modifiers kw world_two = (Ok self, w')
       ∧ _datasets self ≠ []
       ∧ _schema self
         = Some (if schema_is_falsy
                      (declared_schema world_two (_schema_path self))
                 then _generate_schema_from_datafiles (_datasets self)
                 else default ∅
                        (declared_schema world_two (_schema_path self)))).
Proof.
  split; [|split].
  - destruct (construction_failures FILE_DIR _generate_modifiers kw_missing
                world_none "/nowhere" eq_refl) as (Hnodir & _ & _).
    apply Hnodir. right. reflexivity.
  - destruct (construction_failures FILE_DIR _generate_modifiers kw
                world_none "/data" eq_refl) as (_ & Hnone & _).
    apply (Hnone ["notes.txt"]).
    + discriminate.
    + reflexivity.
    + exact I.
    + repeat constructor.
  - destruct (construction_failures FILE_DIR _generate_modifiers kw
                world_two "/data" eq_refl) as (_ & _ & Hok).
    destruct (_subclass_init FILE_DIR _generate_modifiers kw world_two)
      as [[self|e] w'] eqn:Hinit; [|vm_compute in Hinit; discriminate].
    exists self, w'. split; [reflexivity|]. by apply (Hok self w').
Defined.

(** C4 fails as stated: no schema file and a visit without columns give an
    instance, and its schema is empty. *)
Lemma construction_accepts_empty_schema :
  declared_schema world_blank "/data/schema.yaml" = None
  ∧ ∃ self w',
      _subclass_init FILE_DIR _generate_modifiers kw world_blank = (Ok self, w')
      ∧ _generate_schema_from_datafiles (_datasets self) = ∅
      ∧ _schema self = Some ∅.
Proof.
  split; [reflexivity|].
  destruct (_subclass_init FILE_DIR _generate_modifiers kw world_blank)
    as [[self|e] w'] eqn:Hinit; [|vm_compute in Hinit; discriminate].
  exists self, w'. split; [done|].
  vm_compute in Hinit. injection Hinit as <- <-. by vm_compute.
Qed.

Lemma schema_regeneration_guard_witness :
  (∃ msg, generate_schema_yaml catalog false world_open
          = (Err (RuntimeError msg), world_open))
  ∧ ∃ w',
      generate_schema_yaml catalog true world_open = (Ok tt, w')
      ∧ w_events w'
        = [CopyFile "/data/schema.yaml" "/data/schema.yaml.bak";
           WriteFile "/data/schema.yaml"]
      ∧ fs_files (w_fs w') !! "/data/schema.yaml.bak"
        = fs_files (w_fs world_open) !! "/data/schema.yaml".
Proof.
  destruct (schema_regeneration_guard
              catalog world_open
              (FileSchema (Some {["ra" := {| se_dtype := "float64";
                                             se_default := None |}]})))
    as [Hrefuse Hoverwrite]; [discriminate|reflexivity|].
  split; [exact Hrefuse|].
  destruct Hoverwrite as (w' & Hrun & Hevents & Hbackup & _);
    [discriminate|reflexivity|].
  exists w'. split; [exact Hrun|]. split; [exact Hevents|].
  etransitivity; [exact Hbackup|reflexivity].
Defined.

Lemma handle_cache_witness :
  ∃ self w handle1 self1 w1,
    _subclass_init FILE_DIR _generate_modifiers kw world_two = (Ok self, w)
    ∧ _open_parquet self "/data/source_visit_1.parquet" w
      = (Ok (handle1, self1), w1)
    ∧ _open_parquet self1 "/data/source_visit_1.parquet" w1
      = (Ok (handle1, self1), w1)
    ∧ _file_handles (close_all_file_handles self1) = ∅
    ∧ ∃ handle2 self2 w2,
        _open_parquet (close_all_file_handles self1)
          "/data/source_visit_1.parquet" w1
        = (Ok (handle2, self2), w2)
        ∧ pf_id handle2 ≠ pf_id handle1
        ∧ handle2 ≠ handle1
        ∧ _file_handles self2 !! "/data/source_visit_1.parquet" = Some handle2.
Proof.
  destruct (_subclass_init FILE_DIR _generate_modifiers kw world_two)
    as [[self|e] w] eqn:Hinit; [|vm_compute in Hinit; discriminate].
  assert (fs_files (w_fs w) !! "/data/source_visit_1.parquet"
          = Some (FileParquet visit1)) as Hfile.
  { vm_compute in Hinit. by injection Hinit as <- <-. }
  destruct (handle_cache self w "/data/source_visit_1.parquet" visit1)
    as (handle1 & self1 & w1 & Hopen).
  - by apply (_subclass_init_allocated FILE_DIR _generate_modifiers kw world_two).
  - exact Hfile.
  - by exists self, w, handle1, self1, w1.
Defined.

End dm_catalog_example.

(** * Further properties of the code *)

Section flag_mask_algebra.
Import Numpy.

Lemma lookup_zip_with_andb (a b : ndarray) (i : nat) :
  zip_with andb a b !! i = Some true
  ↔ a !! i = Some true ∧ b !! i = Some true.
Proof.
  rewrite lookup_zip_with.
  destruct (a !! i) as [[]|], (b !! i) as [[]|]; simpl; intuition congruence.
Qed.

Lemma length_ones (n : nat) : length (ones n) = n.
Proof. unfold ones. by rewrite length_replicate. Qed.

(** X1.  On arrays of one length the order of the arguments of
    [create_basic_flag_mask] does not matter: any rearrangement of a
    non-empty argument list gives the same mask. *)
Theorem create_basic_flag_mask_permutation (flags flags' : list ndarray)
    (n : nat) :
  flags ≠ [] →
  Forall (λ flag, length flag = n) flags →
  flags ≡ₚ flags' →
  create_basic_flag_mask flags' = create_basic_flag_mask flags.
Proof.
  intros Hne Hall Hperm.
  assert (flags' ≠ []) as Hne'.
  { intros ->. by apply Permutation_nil_r in Hperm. }
  assert (Forall (λ flag, length flag = n) flags') as Hall'
    by (by rewrite <- Hperm).
  rewrite (mask_equal_length flags n), (mask_equal_length flags' n) by done.
  f_equal. apply ndarray_eq.
  - rewrite !length_foldl_mask_step; by rewrite ?length_ones.
  - intros i. rewrite !lookup_foldl_mask_step.
    split; intros [Hones Hfalse]; (split; [done|]); intros flag Hin;
      apply Hfalse.
    + by rewrite <- Hperm.
    + by rewrite Hperm.
Qed.

Lemma create_basic_flag_mask_permutation_witness :
  create_basic_flag_mask [[false; false; true]; [false; true; false]]
  = create_basic_flag_mask [[false; true; false]; [false; false; true]].
Proof.
  apply (create_basic_flag_mask_permutation _ _ 3).
  - discriminate.
  - repeat constructor.
  - apply Permutation_swap.
Defined.

(** X2.  The mask of two argument lists put together is the element-wise
    conjunction of the masks of each list, when all arrays have one
    length. *)
Theorem create_basic_flag_mask_app (flags1 flags2 : list ndarray) (n : nat) :
  flags1 ≠ [] → flags2 ≠ [] →
  Forall (λ flag, length flag = n) flags1 →
  Forall (λ flag, length flag = n) flags2 →
  ∃ mask1 mask2,
    create_basic_flag_mask flags1 = Ok mask1
    ∧ create_basic_flag_mask flags2 = Ok mask2
    ∧ create_basic_flag_mask (flags1 ++ flags2)
      = Ok (zip_with andb mask1 mask2).
Proof.
  intros Hne1 Hne2 Hall1 Hall2.
  exists (foldl mask_step (ones n) flags1), (foldl mask_step (ones n) flags2).
  split; [by apply mask_equal_length|].
  split; [by apply mask_equal_length|].
  rewrite (mask_equal_length _ n).
  2:{ by destruct flags1. }
  2:{ by apply Forall_app. }
  f_equal. apply ndarray_eq.
  - rewrite length_zip_with, !length_foldl_mask_step;
      rewrite ?length_ones; try done; [lia|by apply Forall_app].
  - intros i. rewrite lookup_zip_with_andb, !lookup_foldl_mask_step.
    split.
    + intros [Hones Hfalse].
      repeat split; try done; intros flag Hin; apply Hfalse;
        apply elem_of_app; auto.
    + intros [[Hones Hfalse1] [_ Hfalse2]]. split; [done|].
      intros flag Hin. apply elem_of_app in Hin as [Hin|Hin]; auto.
Qed.

Lemma create_basic_flag_mask_app_witness :
  ∃ mask1 mask2,
    create_basic_flag_mask [[false; true; false]] = Ok mask1
    ∧ create_basic_flag_mask [[false; false; true]; [false; false; false]]
      = Ok mask2
    ∧ create_basic_flag_mask
        ([[false; true; false]]
         ++ [[false; false; true]; [false; false; false]])%list
      = Ok (zip_with andb mask1 mask2).
Proof.
  apply (create_basic_flag_mask_app _ _ 3).
  - discriminate.
  - discriminate.
  - repeat constructor.
  - repeat constructor.
Defined.

End flag_mask_algebra.

Section truth_reader_more.
Import Truth.
Context {row : Type}.
Implicit Types (env : environment row) (kw : kwargs)
  (self : DC2Truth22CatalogReader row) (g : getter row).

Lemma string_append_assoc (a b c : string) : (a ++ b) ++ c = a ++ b ++ c.
Proof.
  induction a as [|x a IH]; [done|].
  change (String x ((a ++ b) ++ c) = String x (a ++ b ++ c)). by rewrite IH.
Qed.

Lemma py_dict_foldl_lookup_ne {V : Type} (pairs : list (string * V))
    (d : gmap string V) (k : string) :
  k ∉ pairs.*1 →
  foldl (λ d kv, <[kv.1 := kv.2]> d) d pairs !! k = d !! k.
Proof.
  revert d. induction pairs as [|[k' v'] pairs IH]; intros d Hnot; [done|].
  simpl in *. apply not_elem_of_cons in Hnot as [Hne Hnot].
  rewrite IH by done. by rewrite lookup_insert_ne.
Qed.

Lemma py_dict_lookup_last {V : Type} (pre post : list (string * V))
    (k : string) (v : V) :
  k ∉ post.*1 → py_dict (pre ++ (k, v) :: post) !! k = Some v.
Proof.
  intros Hnot. unfold py_dict. rewrite foldl_app. simpl.
  rewrite py_dict_foldl_lookup_ne by done. apply lookup_insert_eq.
Qed.

Lemma py_dict_lookup_None {V : Type} (pairs : list (string * V)) (k : string) :
  py_dict pairs !! k = None ↔ k ∉ pairs.*1.
Proof.
  rewrite py_dict_list_to_map, <- not_elem_of_list_to_map.
  by rewrite fmap_reverse, elem_of_reverse.
Qed.

Lemma truth_subclass_init_descriptions env kw self :
  _subclass_init env kw = Ok self →
  _is_static self = default true (kw_is_static kw)
  ∧ if _is_static self
    then ∃ rows,
        db_column_descriptions (_conn self)
          "SELECT name, description FROM column_descriptions;" = Ok rows
        ∧ _column_descriptions self = py_dict rows
    else _column_descriptions self = ∅.
Proof.
  unfold _subclass_init. intros Hinit.
  destruct (kw_filename kw) as [filename|]; [simpl in Hinit|done].
  destruct (env_isfile env filename); [simpl in Hinit|done].
  destruct (match kw_md5 kw with Some _ => _ | None => _ end); [done|].
  destruct (default true (kw_is_static kw)) eqn:Hstatic.
  - destruct (db_column_descriptions _ _) as [rows|] eqn:Hrows;
      [simpl in Hinit|done].
    destruct (db_table_info _ _) as [results|]; [simpl in Hinit|done].
    injection Hinit as <-. simpl. split; [done|]. by exists rows.
  - simpl in Hinit.
    destruct (db_table_info _ _) as [results|]; [simpl in Hinit|done].
    injection Hinit as <-. done.
Qed.

(** X3.  The constructor of the truth reader raises [KeyError] when no
    [filename] is given, [ValueError] when the file does not exist, and
    [ValueError] when a non-empty [md5] is given that differs from the
    checksum of the file; in the last two cases whatever the database
    holds. *)
Theorem truth_constructor_errors env kw :
  (kw_filename kw = None → _subclass_init env kw = Err (KeyError "filename"))
  ∧ (∀ filename,
       kw_filename kw = Some filename →
       env_isfile env filename = false →
       _subclass_init env kw
       = Err (ValueError (filename ++ " is not a valid file")))
  ∧ (∀ filename sum,
       kw_filename kw = Some filename →
       env_isfile env filename = true →
       kw_md5 kw = Some sum → sum ≠ "" → env_md5 env filename ≠ sum →
       _subclass_init env kw = Err (ValueError "md5 sum does not match!")).
Proof.
  unfold _subclass_init. split; [|split].
  - by intros ->.
  - intros filename -> Hfile. simpl. by rewrite Hfile.
  - intros filename sum -> Hfile -> Hsum Hdiff. simpl. rewrite Hfile. simpl.
    apply String.eqb_neq in Hsum, Hdiff. by rewrite Hsum, Hdiff.
Qed.

(** X4.  A reader built with [is_static=False] never asks for the column
    descriptions: it is built whether or not that query would succeed, it
    holds no description, and [_get_quantity_info_dict] returns the default
    for every quantity. *)
Theorem non_static_reader_has_no_descriptions env kw (filename : string)
    (results : list table_info_row) :
  kw_is_static kw = Some false →
  kw_filename kw = Some filename →
  env_isfile env filename = true →
  match kw_md5 kw with
  | Some sum => sum = "" ∨ env_md5 env filename = sum
  | None => True
  end →
  db_table_info (env_connect env filename)
    (pragma_table_info (default "truth" (kw_table_name kw))) = Ok results →
  ∃ self,
    _subclass_init env kw = Ok self
    ∧ _column_descriptions self = ∅
    ∧ ∀ quantity default, _get_quantity_info_dict self quantity default = default.
Proof.
  intros Hstatic Hfile Hisfile Hmd5 Hinfo.
  destruct (_subclass_init_ok env kw filename results) as [self Hinit];
    try done.
  { rewrite Hstatic. done. }
  exists self. split; [done|].
  destruct (truth_subclass_init_descriptions env kw self Hinit) as [Hs Hdesc].
  rewrite Hstatic in Hs. simpl in Hs. rewrite Hs in Hdesc.
  split; [done|]. intros quantity d. unfold _get_quantity_info_dict.
  by rewrite Hdesc, lookup_empty.
Qed.

(** X5.  On a static reader [_get_quantity_info_dict] returns, for a
    quantity named in the description table, the description of the last
    row that names it, and the default for a quantity the table does not
    name. *)
Theorem static_reader_descriptions env kw self
    (rows : list (string * string)) :
  _subclass_init env kw = Ok self →
  default true (kw_is_static kw) = true →
  db_column_descriptions (_conn self)
    "SELECT name, description FROM column_descriptions;" = Ok rows →
  (∀ pre post name description default,
     rows = (pre ++ (name, description) :: post)%list →
     name ∉ post.*1 →
     _get_quantity_info_dict self name default = Some description)
  ∧ (∀ name default,
       name ∉ rows.*1 → _get_quantity_info_dict self name default = default).
Proof.
  intros Hinit Hstatic Hrows.
  destruct (truth_subclass_init_descriptions env kw self Hinit) as [Hs Hdesc].
  rewrite Hstatic in Hs. rewrite Hs in Hdesc.
  destruct Hdesc as (rows' & Hrows' & Hdesc).
  assert (rows' = rows) as -> by congruence.
  unfold _get_quantity_info_dict. rewrite Hdesc. split.
  - intros pre post name description d -> Hnot.
    by rewrite py_dict_lookup_last.
  - intros name d Hnot. apply py_dict_lookup_None in Hnot. by rewrite Hnot.
Qed.

(** X6.  The native quantities of the truth reader are exactly the column
    names that the introspection of the table lists, each once. *)
Theorem native_quantities_are_columns env kw self
    (results : list table_info_row) :
  _subclass_init env kw = Ok self →
  db_table_info (_conn self) (pragma_table_info (_table_name self))
  = Ok results →
  NoDup (_generate_native_quantity_list self)
  ∧ ∀ quantity,
      quantity ∈ _generate_native_quantity_list self
      ↔ quantity ∈ ti_name <$> results.
Proof.
  intros Hinit Hinfo.
  destruct (_subclass_init_inv env kw self Hinit)
    as (filename & results' & _ & _ & _ & Hinfo' & Hdtypes & _).
  rewrite Hinfo in Hinfo'. injection Hinfo' as <-.
  unfold _generate_native_quantity_list. split.
  { apply NoDup_fst_map_to_list. }
  intros quantity. rewrite Hdtypes.
  assert (quantity ∈ (map_to_list
                        (canonical_dtype
                           <$> py_dict ((λ t, (ti_name t, ti_type t)) <$> results))).*1
          ↔ ¬ (py_dict ((λ t, (ti_name t, ti_type t)) <$> results) !! quantity
               = None)) as ->.
  { rewrite list_elem_of_fmap. split.
    - intros ([k v] & -> & Hin). apply elem_of_map_to_list in Hin.
      rewrite lookup_fmap in Hin. simpl. intros Hnone. by rewrite Hnone in Hin.
    - intros Hsome.
      destruct (py_dict _ !! quantity) as [v|] eqn:Hlookup; [|done].
      exists (quantity, canonical_dtype v). split; [done|].
      apply elem_of_map_to_list. by rewrite lookup_fmap, Hlookup. }
  rewrite py_dict_lookup_None, <- list_fmap_compose.
  split; [|by auto].
  intros Hnn. destruct (decide (quantity ∈ ti_name <$> results)); [done|].
  by destruct Hnn.
Qed.

Lemma record_dtype_missing (dtypes : gmap string string)
    (quantities : list string) :
  (∃ q, q ∈ quantities ∧ dtypes !! q = None) →
  ∃ q, q ∈ quantities ∧ dtypes !! q = None
       ∧ record_dtype dtypes quantities = Err (KeyError q).
Proof.
  induction quantities as [|q0 quantities IH]; intros (q & Hin & Hnone).
  { by apply elem_of_nil in Hin. }
  simpl. destruct (dtypes !! q0) as [t|] eqn:Hq0.
  - apply elem_of_cons in Hin as [->|Hin]; [congruence|].
    destruct IH as (q' & Hin' & Hnone' & ->); [by eauto|].
    exists q'. split; [by right|]. done.
  - exists q0. split; [by left|]. done.
Qed.


(** X7.  Asking the getter for a quantity that is not a column of the
    table raises [KeyError] for the first such quantity, before any
    statement is run on the cursor. *)
Theorem getter_unknown_quantity g (quantities : list string)
    (executed : list string) :
  (∃ q, q ∈ quantities ∧ _native_quantity_dtypes (g_self g) !! q = None) →
  ∃ q,
    q ∈ quantities
    ∧ _native_quantity_dtypes (g_self g) !! q = None
    ∧ dc2_truth_native_quantity_getter g quantities executed
      = (Err (KeyError q), executed).
Proof.
  intros Hmissing.
  destruct (record_dtype_missing _ _ Hmissing) as (q & Hin & Hnone & Hrec).
  exists q. repeat (split; [done|]).
  unfold dc2_truth_native_quantity_getter. by rewrite Hrec.
Qed.

Lemma where_clause_parenthesized (filter : string) (filters : list string) :
  "(" ++ join ") AND (" (filter :: filters) ++ ")"
  = join " AND " (paren <$> filter :: filters).
Proof.
  revert filter. induction filters as [|next filters IH]; intros filter.
  { done. }
  change (join ") AND (" (filter :: next :: filters))
    with (filter ++ ") AND (" ++ join ") AND (" (next :: filters)).
  change (join " AND " (paren <$> filter :: next :: filters))
    with (paren filter ++ " AND "
          ++ join " AND " (paren <$> next :: filters)).
  rewrite <- IH. unfold paren.
  rewrite !string_append_assoc. done.
Qed.

(** X8.  Whatever filters are configured and given, the iteration of the
    truth reader yields exactly one getter, bound to the instance.  Its
    WHERE clause is empty when there is no filter at all, and otherwise is
    [WHERE] followed by every filter in its own parentheses, the base
    filters first, joined by [AND]; an empty list of call-time filters
    behaves as none. *)
Theorem where_clause_of_filters self (native_filters : option (list string)) :
  ∃ g,
    _iter_native_dataset self native_filters = [g]
    ∧ g_self g = self
    ∧ g_query_where_clause g
      = match (base_filters self ++ default [] native_filters)%list with
        | [] => ""
        | filters => "WHERE " ++ join " AND " (paren <$> filters)
        end
    ∧ _iter_native_dataset self (Some []) = _iter_native_dataset self None.
Proof.
  eexists. split; [reflexivity|]. split; [done|]. split.
  - cbv beta iota zeta delta [g_query_where_clause].
    assert (match native_filters with
            | Some filters => (base_filters self ++ filters)%list
            | None => base_filters self
            end = (base_filters self ++ default [] native_filters)%list) as ->.
    { destruct native_filters; simpl; by rewrite ?app_nil_r. }
    destruct (base_filters self ++ default [] native_filters)%list
      as [|filter filters]; [done|].
    rewrite <- where_clause_parenthesized.
    by rewrite <- !string_append_assoc.
  - unfold _iter_native_dataset. by rewrite app_nil_r.
Qed.


End truth_reader_more.

Section truth_reader_more_example.
Import Truth TruthCases.

Lemma truth_constructor_errors_witness :
  _subclass_init TruthExample.env (kw_of None None None)
  = Err (KeyError "filename")
  ∧ _subclass_init TruthExample.env (kw_of (Some "missing.db") None None)
    = Err (ValueError "missing.db is not a valid file")
  ∧ _subclass_init TruthExample.env (kw_of (Some "truth.db") None (Some "00"))
    = Err (ValueError "md5 sum does not match!").
Proof.
  split; [|split].
  - destruct (truth_constructor_errors TruthExample.env (kw_of None None None))
      as (Hkey & _ & _).
    by apply Hkey.
  - destruct (truth_constructor_errors
                TruthExample.env (kw_of (Some "missing.db") None None))
      as (_ & Hfile & _).
    by apply (Hfile "missing.db").
  - destruct (truth_constructor_errors
                TruthExample.env (kw_of (Some "truth.db") None (Some "00")))
      as (_ & _ & Hmd5).
    by apply (Hmd5 "truth.db" "00").
Defined.

Lemma non_static_reader_has_no_descriptions_witness :
  ∃ self,
    _subclass_init env_plain (kw_of (Some "truth.db") (Some false) None)
    = Ok self
    ∧ _column_descriptions self = ∅
    ∧ ∀ quantity default,
        _get_quantity_info_dict self quantity default = default.
Proof.
  apply (non_static_reader_has_no_descriptions
           env_plain (kw_of (Some "truth.db") (Some false) None)
           "truth.db" TruthExample.columns).
  - reflexivity.
  - reflexivity.
  - reflexivity.
  - exact I.
  - reflexivity.
Defined.

Lemma static_reader_descriptions_witness :
  ∃ self,
    _subclass_init TruthExample.env (TruthExample.kw None) = Ok self
    ∧ _get_quantity_info_dict self "a" None = Some "identifier"
    ∧ _get_quantity_info_dict self "c" None = None.
Proof.
  destruct (_subclass_init TruthExample.env (TruthExample.kw None))
    as [self|e] eqn:Hinit; [|vm_compute in Hinit; discriminate].
  assert (_conn self = TruthExample.db) as Hconn.
  { vm_compute in Hinit. by injection Hinit as <-. }
  destruct (static_reader_descriptions
              TruthExample.env (TruthExample.kw None) self
              [("a", "identifier"); ("b", "redshift")] Hinit)
    as [Hnamed Hother].
  - reflexivity.
  - by rewrite Hconn.
  - exists self. split; [done|]. split.
    + apply (Hnamed [] [("b", "redshift")]); [done|].
      simpl. intros Hin. apply list_elem_of_singleton in Hin. discriminate.
    + apply Hother. simpl. intros Hin.
      apply elem_of_cons in Hin as [Hin|Hin]; [discriminate|].
      apply list_elem_of_singleton in Hin. discriminate.
Defined.

Lemma native_quantities_are_columns_witness :
  ∃ self,
    _subclass_init TruthExample.env (TruthExample.kw None) = Ok self
    ∧ NoDup (_generate_native_quantity_list self)
    ∧ ∀ quantity,
        quantity ∈ _generate_native_quantity_list self
        ↔ quantity ∈ ["a"; "b"; "c"].
Proof.
  destruct (_subclass_init TruthExample.env (TruthExample.kw None))
    as [self|e] eqn:Hinit; [|vm_compute in Hinit; discriminate].
  assert (_table_name self = "truth" ∧ _conn self = TruthExample.db)
    as [Htable Hconn].
  { vm_compute in Hinit. injection Hinit as <-. by split. }
  exists self. split; [done|].
  apply (native_quantities_are_columns
           TruthExample.env (TruthExample.kw None) self TruthExample.columns
           Hinit).
  by rewrite Hconn.
Defined.

Lemma getter_unknown_quantity_witness :
  ∃ self g q,
    _subclass_init TruthExample.env (TruthExample.kw None) = Ok self
    ∧ _iter_native_dataset self None = [g]
    ∧ q ∈ ["a"; "redshift"]
    ∧ dc2_truth_native_quantity_getter g ["a"; "redshift"] []
      = (Err (KeyError q), []).
Proof.
  destruct (_subclass_init TruthExample.env (TruthExample.kw None))
    as [self|e] eqn:Hinit; [|vm_compute in Hinit; discriminate].
  assert (_native_quantity_dtypes self !! "redshift" = None) as Hnone.
  { vm_compute in Hinit. by injection Hinit as <-. }
  set (g := {| g_self := self; g_query_where_clause := "" |}).
  assert (_iter_native_dataset self None = [g]) as Hiter.
  { unfold _iter_native_dataset, g.
    assert (base_filters self = []) as ->; [|done].
    vm_compute in Hinit. by injection Hinit as <-. }
  destruct (getter_unknown_quantity g ["a"; "redshift"] [])
    as (q & Hin & _ & Hcall).
  - exists "redshift". split; [|done].
    apply elem_of_cons. right. apply elem_of_cons. by left.
  - by exists self, g, q.
Defined.


End truth_reader_more_example.

Section dm_catalog_more.
Import DM.
Context {cell : Type}.
Implicit Types (self : DC2DMCatalog cell) (w : world cell)
  (dataset : ParquetFile cell) (rest : list (ParquetFile cell)).

(** *** Computations that only read the file system *)

Lemma reads_only_ret {A : Type} (a : A) : reads_only (ret (cell := cell) a).
Proof. by intros w r w' [= <- <-]. Qed.

Lemma reads_only_raise {A : Type} (e : exn) :
  reads_only (raise (cell := cell) (A := A) e).
Proof. by intros w r w' [= <- <-]. Qed.

Lemma reads_only_bind {A B : Type} (m : M cell A) (k : A → M cell B) :
  reads_only m → (∀ a, reads_only (k a)) → reads_only (bind m k).
Proof.
  intros Hm Hk w r w'. unfold bind.
  destruct (m w) as [[a|e] w1] eqn:Hrun; apply Hm in Hrun.
  - intros Hrun'. apply Hk in Hrun'. congruence.
  - intros [= <- <-]. done.
Qed.

Lemma reads_only_try {A : Type} (m handler : M cell A) :
  reads_only m → reads_only handler → reads_only (try_except_OSError m handler).
Proof.
  intros Hm Hh w r w'. unfold try_except_OSError.
  destruct (m w) as [[a|e] w1] eqn:Hrun; apply Hm in Hrun.
  - intros [= <- <-]. done.
  - destruct e; try (intros [= <- <-]; done).
    intros Hrun'. apply Hh in Hrun'. congruence.
Qed.

Lemma reads_only_for_eachM {A S : Type} (body : S → A → M cell S)
    (xs : list A) (s : S) :
  (∀ s x, reads_only (body s x)) → reads_only (for_eachM body xs s).
Proof.
  intros Hbody. revert s. induction xs as [|x xs IH]; intros s.
  - apply reads_only_ret.
  - simpl. apply reads_only_bind; [apply Hbody|]. intros s'. apply IH.
Qed.

Lemma reads_only_warn (msg : string) : reads_only (warn (cell := cell) msg).
Proof. by intros w r w' [= <- <-]. Qed.

Lemma reads_only_emit (ev : io_event) : reads_only (emit (cell := cell) ev).
Proof. by intros w r w' [= <- <-]. Qed.

Lemma reads_only_open_parquet self (file_path : string) :
  reads_only (_open_parquet self file_path).
Proof.
  unfold _open_parquet. destruct (_file_handles self !! file_path).
  { apply reads_only_ret. }
  apply reads_only_bind; [|intros; apply reads_only_ret].
  intros w r w'. unfold pq_ParquetFile.
  destruct (fs_files (w_fs w) !! file_path) as [[| | | |]|];
    by intros [= <- <-].
Qed.

Lemma reads_only_generate_datasets self : reads_only (_generate_datasets self).
Proof.
  unfold _generate_datasets. apply reads_only_bind.
  { intros w r w'. unfold listdir.
    destruct (fs_dirs (w_fs w) !! base_dir self); by intros [= <- <-]. }
  intros names. apply reads_only_for_eachM. intros [datasets self1] fname.
  destruct (negb _); [apply reads_only_ret|].
  apply reads_only_try.
  - apply reads_only_bind; [apply reads_only_open_parquet|].
    intros [df self2]. apply reads_only_ret.
  - apply reads_only_bind; [apply reads_only_warn|].
    intros _. apply reads_only_ret.
Qed.

Lemma reads_only_schema_from_yaml (schema_path : string) :
  reads_only (_generate_schema_from_yaml (cell := cell) schema_path).
Proof.
  unfold _generate_schema_from_yaml. apply reads_only_bind.
  { intros w r w'.
    destruct (fs_files (w_fs w) !! schema_path) as [[| | | |]|];
      by intros [= <- <-]. }
  intros schema. apply reads_only_bind; [|intros; apply reads_only_ret].
  destruct schema; [apply reads_only_ret|apply reads_only_warn].
Qed.

Lemma reads_only_info_dict (meta_path : string) :
  reads_only (_generate_info_dict (cell := cell) meta_path).
Proof.
  intros w r w' Hrun. by apply _generate_info_dict_same_world in Hrun as ->.
Qed.

Lemma reads_only_gen_next (gen : generator cell) : reads_only (gen_next gen).
Proof.
  unfold gen_next. destruct (gen_at gen) as [rest|dataset rest|].
  - destruct (run_to_yield _ rest). apply reads_only_ret.
  - apply reads_only_bind.
    + destruct (negb _); [apply reads_only_emit|apply reads_only_ret].
    + intros _. destruct (run_to_yield _ rest). apply reads_only_ret.
  - apply reads_only_ret.
Qed.

(** X10.  Constructing a catalog and iterating over it only ever read the
    file system: whether they return or raise, every directory listing and
    every file is afterwards as it was before. *)
Theorem construction_and_iteration_read_only (FILE_DIR : string)
    (generate_modifiers : nat → gmap string (option string)) (kw : kwargs)
    (gen : generator cell) (fuel : nat) :
  reads_only (_subclass_init (cell := cell) FILE_DIR generate_modifiers kw)
  ∧ reads_only (gen_next gen)
  ∧ reads_only (gen_collect fuel gen).
Proof.
  split; [|split].
  - unfold _subclass_init.
    apply reads_only_bind.
    { destruct (kw_base_dir kw); [apply reads_only_ret|apply reads_only_raise]. }
    intros base. apply reads_only_bind.
    { by intros w r w' [= <- <-]. }
    intros base_is_dir. destruct (negb base_is_dir); [apply reads_only_raise|].
    apply reads_only_bind.
    { by intros w r w' [= <- <-]. }
    intros schema_is_file. apply reads_only_bind.
    { destruct (negb _ && _);
        [apply reads_only_schema_from_yaml|apply reads_only_ret]. }
    intros schema. apply reads_only_bind;
      [apply reads_only_generate_datasets|].
    intros [datasets self].
    destruct (_datasets (set_datasets datasets self));
      [apply reads_only_raise|].
    apply reads_only_bind.
    { destruct (schema_is_falsy _); [|apply reads_only_ret].
      apply reads_only_bind; [apply reads_only_warn|].
      intros _. apply reads_only_ret. }
    intros self'. apply reads_only_bind; [apply reads_only_info_dict|].
    intros info. apply reads_only_ret.
  - apply reads_only_gen_next.
  - revert gen. induction fuel as [|fuel IH]; intros gen.
    { apply reads_only_ret. }
    simpl. apply reads_only_bind; [apply reads_only_gen_next|].
    intros [[g|] gen']; [|apply reads_only_ret].
    apply reads_only_bind; [apply IH|]. intros [items gen''].
    apply reads_only_ret.
Qed.

(** *** Discovery of the datasets *)

Lemma opens_spec w (path : string) :
  opens w path = true
  ↔ ∃ data, fs_files (w_fs w) !! path = Some (FileParquet data).
Proof.
  unfold opens. destruct (fs_files (w_fs w) !! path) as [[| |data| |]|];
    split; try done; try (by intros [? ?]). by exists data.
Qed.

Lemma discovery_loop self0 w0 (names : list string) :
  ∀ (datasets : list (ParquetFile cell)) self w,
    self = set_file_handles (_file_handles self) self0 →
    w_fs w = w_fs w0 →
    (∀ path handle,
       _file_handles self !! path = Some handle →
       pf_path handle = path
       ∧ fs_files (w_fs w0) !! path = Some (FileParquet (pf_data handle))) →
    (∀ fname,
       fname ∈ names → _filename_re self0 fname = true →
       opens w0 (path_join (base_dir self0) fname) = true
       ∨ inaccessible w0 (path_join (base_dir self0) fname) = true) →
    ∃ found self' w',
      for_eachM
        (λ '(datasets, self) fname,
           if negb (_filename_re self fname) then ret (datasets, self)
           else
             let file_path := path_join (base_dir self) fname in
             try_except_OSError
               (bind (_open_parquet self file_path)
                  (λ '(df, self'), ret ((datasets ++ [df])%list, self')))
               (bind (warn ("Cannot access " ++ file_path ++ "; skipped"))
                  (λ _, ret (datasets, self))))
        names (datasets, self) w
      = (Ok ((datasets ++ found)%list, self'), w')
      ∧ pf_path <$> found
        = path_join (base_dir self0)
            <$> filter (λ fname,
                          _filename_re self0 fname = true
                          ∧ opens w0 (path_join (base_dir self0) fname) = true)
                       names
      ∧ w_warnings w'
        = (w_warnings w
           ++ ((λ fname, ("Cannot access "
                          ++ path_join (base_dir self0) fname
                          ++ "; skipped")%string)
                 <$> filter (λ fname,
                               _filename_re self0 fname = true
                               ∧ opens w0 (path_join (base_dir self0) fname)
                                 = false)
                            names))%list
      ∧ ∀ d, d ∈ found →
             fs_files (w_fs w0) !! pf_path d = Some (FileParquet (pf_data d)).
Proof.
  induction names as [|fname names IH];
    intros datasets self w Hconfig Hfs Hcache Hcontent.
  { exists [], self, w. simpl. rewrite !app_nil_r. repeat split.
    intros d Hin. by apply elem_of_nil in Hin. }
  assert (base_dir self = base_dir self0
          ∧ _filename_re self = _filename_re self0) as [Hbase Hre]
    by (by rewrite Hconfig).
  assert (∀ fname', fname' ∈ names → _filename_re self0 fname' = true →
            opens w0 (path_join (base_dir self0) fname') = true
            ∨ inaccessible w0 (path_join (base_dir self0) fname') = true)
    as Hcontent'.
  { intros fname' Hin. apply Hcontent. by right. }
  cbn [for_eachM]. rewrite Hre, Hbase.
  destruct (_filename_re self0 fname) eqn:Hmatch; simpl.
  2:{ rewrite !filter_cons_False by (intros [Hyes _]; congruence).
      rewrite (bind_ok _ _ w (datasets, self) w eq_refl).
      by apply IH. }
  set (path := path_join (base_dir self0) fname) in *.
  destruct (_file_handles self !! path) as [cached|] eqn:Hcached.
  - (* the path is in the cache *)
    destruct (Hcache _ _ Hcached) as [Hpath Hfile].
    assert (opens w0 path = true) as Hopens by (apply opens_spec; eauto).
    rewrite filter_cons_True by done.
    rewrite (filter_cons_False (λ fname, _ ∧ _ = false))
      by (intros [_ Hno]; fold path in Hno; congruence).
    erewrite bind_ok.
    2:{ unfold try_except_OSError.
        erewrite (bind_ok (_open_parquet self path)).
        2:{ unfold _open_parquet. rewrite Hcached. reflexivity. }
        reflexivity. }
    destruct (IH (datasets ++ [cached])%list self w Hconfig Hfs Hcache Hcontent')
      as (found & self' & w' & Hrun & Hpaths & Hwarn & Hfiles).
    exists (cached :: found), self', w'.
    rewrite <- app_assoc in Hrun. split; [exact Hrun|].
    split; [by rewrite !fmap_cons, Hpaths, Hpath|]. split; [done|].
    intros d Hin. apply elem_of_cons in Hin as [->|Hin]; [|by apply Hfiles].
    by rewrite Hpath.
  - destruct (fs_files (w_fs w0) !! path) as [content|] eqn:Hfile.
    + destruct (Hcontent fname ltac:(by left) Hmatch) as [Hopens|Hbad];
        fold path in Hopens || fold path in Hbad.
      * (* a Parquet file: a new handle *)
        apply opens_spec in Hopens as [data Hdata].
        rewrite filter_cons_True by (split; [done|apply opens_spec; eauto]).
        rewrite (filter_cons_False (λ fname, _ ∧ _ = false)).
        2:{ intros [_ Hno]. fold path in Hno.
            assert (opens w0 path = true) by (apply opens_spec; eauto).
            congruence. }
        set (handle := {| pf_id := w_next_id w; pf_path := path;
                          pf_data := data |}).
        set (self1 := set_file_handles (<[path := handle]> (_file_handles self))
                                       self).
        set (w1 := {| w_fs := w_fs w; w_next_id := S (w_next_id w);
                      w_warnings := w_warnings w; w_events := w_events w |}).
        assert (_open_parquet self path w = (Ok (handle, self1), w1)) as Hopen.
        { assert (fs_files (w_fs w) !! path = Some (FileParquet data))
            as Hdata' by (by rewrite Hfs).
          unfold _open_parquet. rewrite Hcached.
          unfold bind, pq_ParquetFile. by rewrite Hdata'. }
        erewrite bind_ok.
        2:{ unfold try_except_OSError.
            erewrite (bind_ok (_open_parquet self path)) by exact Hopen.
            reflexivity. }
        destruct (IH (datasets ++ [handle])%list self1 w1)
          as (found & self' & w' & Hrun & Hpaths & Hwarn & Hfiles);
          [| | |done|].
        { unfold self1. simpl.
          generalize (<[path := handle]> (_file_handles self)).
          intros handles. by rewrite Hconfig. }
        { done. }
        { intros path' handle'. unfold self1. simpl.
          destruct (decide (path = path')) as [<-|Hne].
          - rewrite lookup_insert_eq. by intros [= <-].
          - rewrite lookup_insert_ne by done. apply Hcache. }
        exists (handle :: found), self', w'.
        rewrite <- app_assoc in Hrun. split; [exact Hrun|].
        split; [by rewrite !fmap_cons, Hpaths|]. split; [done|].
        intros d Hin. apply elem_of_cons in Hin as [->|Hin]; [done|].
        by apply Hfiles.
      * (* a file that cannot be opened: skipped with a warning *)
        unfold inaccessible in Hbad. rewrite Hfile in Hbad.
        destruct content; try done.
        assert (opens w0 path = false) as Hno
          by (unfold opens; by rewrite Hfile).
        rewrite filter_cons_False by (intros [_ Hyes]; fold path in Hyes;
                                      congruence).
        rewrite (filter_cons_True (λ fname, _ ∧ _ = false)) by done.
        erewrite bind_ok.
        2:{ unfold try_except_OSError.
            erewrite (bind_err (_open_parquet self path)).
            2:{ unfold _open_parquet. rewrite Hcached.
                apply bind_err. unfold pq_ParquetFile.
                by rewrite Hfs, Hfile. }
            reflexivity. }
        destruct (IH datasets self (add_warning
                                      ("Cannot access " ++ path ++ "; skipped") w)
                    Hconfig Hfs Hcache Hcontent')
          as (found & self' & w' & Hrun & Hpaths & Hwarn & Hfiles).
        exists found, self', w'. split; [exact Hrun|]. split; [done|].
        split; [|done]. rewrite Hwarn. simpl. by rewrite <- app_assoc.
    + (* no such file: skipped with a warning *)
      assert (opens w0 path = false) as Hno
        by (unfold opens; by rewrite Hfile).
      rewrite filter_cons_False by (intros [_ Hyes]; fold path in Hyes;
                                    congruence).
      rewrite (filter_cons_True (λ fname, _ ∧ _ = false)) by done.
      erewrite bind_ok.
      2:{ unfold try_except_OSError.
          erewrite (bind_err (_open_parquet self path)).
          2:{ unfold _open_parquet. rewrite Hcached.
              apply bind_err. unfold pq_ParquetFile.
              by rewrite Hfs, Hfile. }
          reflexivity. }
      destruct (IH datasets self (add_warning
                                    ("Cannot access " ++ path ++ "; skipped") w)
                  Hconfig Hfs Hcache Hcontent')
        as (found & self' & w' & Hrun & Hpaths & Hwarn & Hfiles).
      exists found, self', w'. split; [exact Hrun|]. split; [done|].
      split; [|done]. rewrite Hwarn. simpl. by rewrite <- app_assoc.
Qed.

(** X11.  With an empty handle cache, [_generate_datasets] returns one
    handle for every name of the directory that matches the pattern and
    opens as a Parquet file, in the sorted order of the names and holding
    the content of the file, and warns once for every matching name that
    cannot be opened, provided no matching name holds other content. *)
Theorem discovery_of_datasets self w (names : list string) :
  _file_handles self = ∅ →
  fs_dirs (w_fs w) !! base_dir self = Some names →
  (∀ fname,
     fname ∈ names → _filename_re self fname = true →
     opens w (path_join (base_dir self) fname) = true
     ∨ inaccessible w (path_join (base_dir self) fname) = true) →
  ∃ datasets self' w',
    _generate_datasets self w = (Ok (datasets, self'), w')
    ∧ pf_path <$> datasets
      = path_join (base_dir self)
          <$> filter (λ fname,
                        _filename_re self fname = true
                        ∧ opens w (path_join (base_dir self) fname) = true)
                     (sorted names)
    ∧ w_warnings w'
      = (w_warnings w
         ++ ((λ fname, ("Cannot access "
                        ++ path_join (base_dir self) fname
                        ++ "; skipped")%string)
               <$> filter (λ fname,
                             _filename_re self fname = true
                             ∧ opens w (path_join (base_dir self) fname)
                               = false)
                          (sorted names)))%list
    ∧ ∀ d, d ∈ datasets →
           fs_files (w_fs w) !! pf_path d = Some (FileParquet (pf_data d)).
Proof.
  intros Hempty Hdir Hcontent. unfold _generate_datasets.
  rewrite (bind_ok _ _ w names w) by (unfold listdir; by rewrite Hdir).
  destruct (discovery_loop self w (sorted names) [] self w)
    as (found & self' & w' & Hrun & Hpaths & Hwarn & Hfiles).
  - by destruct self.
  - done.
  - intros path handle. by rewrite Hempty, lookup_empty.
  - intros fname Hin. apply Hcontent.
    unfold sorted in Hin. by rewrite merge_sort_Permutation in Hin.
  - by exists found, self', w'.
Qed.

(** *** The handle cache of a constructed instance *)

Lemma _generate_datasets_cache self w
    (datasets : list (ParquetFile cell)) self' w' :
  _file_handles self = ∅ →
  _generate_datasets self w = (Ok (datasets, self'), w') →
  (∀ d, d ∈ datasets → _file_handles self' !! pf_path d = Some d)
  ∧ (∀ path handle,
       _file_handles self' !! path = Some handle →
       handle ∈ datasets ∧ pf_path handle = path).
Proof.
  unfold _generate_datasets. intros Hempty Hrun.
  apply bind_inv in Hrun as (names & w1 & _ & Hrun).
  apply (for_eachM_inv
           (λ s, (∀ d, d ∈ s.1 → _file_handles s.2 !! pf_path d = Some d)
                 ∧ (∀ path handle,
                      _file_handles s.2 !! path = Some handle →
                      handle ∈ s.1 ∧ pf_path handle = path))) in Hrun;
    [done| |].
  2:{ simpl. split.
      - intros d Hin. by apply elem_of_nil in Hin.
      - intros path handle. by rewrite Hempty, lookup_empty. }
  clear. intros [datasets self1] fname w [datasets' self2] w2 [Hin Hout].
  simpl in *. destruct (_filename_re self1 fname); simpl.
  2:{ by intros [= <- <- <-]. }
  unfold try_except_OSError.
  destruct (bind (_open_parquet self1 _) _ w) as [[[ds df]|e] w3] eqn:Hopen.
  2:{ destruct e; try done. by intros [= <- <- <-]. }
  intros [= <- <- <-].
  apply bind_inv in Hopen as ([handle self3] & w4 & Hopen & [= <- <- <-]).
  unfold _open_parquet in Hopen.
  set (path := path_join (base_dir self1) fname) in *.
  destruct (_file_handles self1 !! path) as [cached|] eqn:Hcached.
  - injection Hopen as <- <- <-. split.
    + intros d Hd. apply elem_of_app in Hd as [Hd|Hd]; [by apply Hin|].
      apply list_elem_of_singleton in Hd as ->.
      destruct (Hout _ _ Hcached) as [_ ->]. done.
    + intros path' handle' Hcached'.
      destruct (Hout _ _ Hcached') as [Hd Hpath]. split; [|done].
      apply elem_of_app. by left.
  - apply bind_inv in Hopen as (h & w5 & Hnew & [= <- <- <-]).
    assert (pf_path h = path) as Hpath.
    { unfold pq_ParquetFile in Hnew.
      destruct (fs_files (w_fs w) !! path) as [[| |data| |]|]; try done.
      by injection Hnew as <- <-. }
    simpl. split.
    + intros d Hd. apply elem_of_app in Hd as [Hd|Hd].
      * destruct (decide (pf_path d = path)) as [Heq|Hne].
        { specialize (Hin d Hd). rewrite Heq in Hin. congruence. }
        rewrite lookup_insert_ne by done. by apply Hin.
      * apply list_elem_of_singleton in Hd as ->.
        rewrite Hpath. apply lookup_insert_eq.
    + intros path' handle'. destruct (decide (path = path')) as [<-|Hne].
      * rewrite lookup_insert_eq. intros [= <-]. split; [|done].
        apply elem_of_app. right. by apply list_elem_of_singleton.
      * rewrite lookup_insert_ne by done. intros Hcached'.
        destruct (Hout _ _ Hcached') as [Hd Hp]. split; [|done].
        apply elem_of_app. by left.
Qed.

(** X12.  In an instance left by the constructor the handle cache and the
    list of datasets hold the same handles: every dataset is cached under
    its own path, and every cached handle is a dataset filed under the path
    it was opened on. *)
Theorem constructed_cache_holds_the_datasets (FILE_DIR : string)
    (generate_modifiers : nat → gmap string (option string))
    (kw : kwargs) w self w' :
  _subclass_init FILE_DIR generate_modifiers kw w = (Ok self, w') →
  (∀ d, d ∈ _datasets self → _file_handles self !! pf_path d = Some d)
  ∧ (∀ path handle,
       _file_handles self !! path = Some handle →
       handle ∈ _datasets self ∧ pf_path handle = path).
Proof.
  unfold _subclass_init. intros Hinit.
  destruct (kw_base_dir kw) as [base|]; [|done].
  apply bind_inv in Hinit as (base' & w0 & [= <- <-] & Hinit).
  apply bind_inv in Hinit as (base_is_dir & w0 & [= <- <-] & Hinit).
  destruct (negb _); [done|].
  apply bind_inv in Hinit as (schema_is_file & w0 & [= <- <-] & Hinit).
  apply bind_inv in Hinit as (schema & w1 & _ & Hinit).
  apply bind_inv in Hinit as ([datasets self1] & w2 & Hdatasets & Hinit).
  apply _generate_datasets_cache in Hdatasets as Hcache; [|done].
  cbn [_datasets set_datasets] in Hinit.
  destruct datasets as [|d ds]; [done|].
  apply bind_inv in Hinit as (self2 & w3 & Hfallback & Hinit).
  apply bind_inv in Hinit as (info & w4 & _ & [= <- <-]).
  assert (_file_handles self2 = _file_handles self1
          ∧ _datasets self2 = d :: ds) as [Hhandles Hds].
  { simpl in Hfallback. destruct (schema_is_falsy _).
    - apply bind_inv in Hfallback as ([] & w5 & _ & [= <- <-]). done.
    - by injection Hfallback as <- <-. }
  simpl. by rewrite Hhandles, Hds.
Qed.

(** *** Quantities of a constructed instance *)

(** X13.  After construction the native filter quantities are exactly the
    columns of the schema, and for a catalog declared to be in DPDD format
    the quantity modifiers map every column of the schema to [None] and
    nothing else, whatever [_generate_modifiers] would build. *)
Theorem constructed_quantities (FILE_DIR : string)
    (generate_modifiers : nat → gmap string (option string))
    (kw : kwargs) w self w' :
  _subclass_init FILE_DIR generate_modifiers kw w = (Ok self, w') →
  ∃ schema,
    _schema self = Some schema
    ∧ _native_filter_quantities self = dom schema
    ∧ _generate_native_quantity_list self = dom schema
    ∧ (kw_is_dpdd kw = Some true →
       ∀ col, _quantity_modifiers self !! col
              = if decide (col ∈ dom schema) then Some None else None).
Proof.
  unfold _subclass_init. intros Hinit.
  destruct (kw_base_dir kw) as [base|]; [|done].
  apply bind_inv in Hinit as (base' & w0 & [= <- <-] & Hinit).
  apply bind_inv in Hinit as (base_is_dir & w0 & [= <- <-] & Hinit).
  destruct (negb _); [done|].
  apply bind_inv in Hinit as (schema_is_file & w0 & [= <- <-] & Hinit).
  apply bind_inv in Hinit as (schema0 & w1 & _ & Hinit).
  apply bind_inv in Hinit as ([datasets self1] & w2 & _ & Hinit).
  cbn [_datasets set_datasets] in Hinit.
  destruct datasets as [|d ds]; [done|].
  apply bind_inv in Hinit as (self2 & w3 & Hfallback & Hinit).
  apply bind_inv in Hinit as (info & w4 & _ & [= <- <-]).
  assert (∃ schema, _schema self2 = Some schema) as [schema Hschema].
  { simpl in Hfallback.
    destruct (schema_is_falsy (_schema self1)) eqn:Hfalsy.
    - apply bind_inv in Hfallback as ([] & w5 & _ & [= <- <-]).
      simpl. eauto.
    - injection Hfallback as <- <-. simpl.
      destruct (_schema self1) as [schema|]; [eauto|done]. }
  exists schema. unfold _generate_native_quantity_list. simpl.
  rewrite Hschema. simpl. repeat split; try done.
  intros ->. simpl. intros col. rewrite lookup_fmap.
  destruct (decide (col ∈ dom schema)) as [Hin|Hout].
  - apply elem_of_dom in Hin as [entry ->]. done.
  - apply not_elem_of_dom in Hout as ->. done.
Qed.

(** *** The schema read from the data files *)

Lemma py_dict_empty_iff {V : Type} (pairs : list (string * V)) :
  py_dict pairs = ∅ ↔ pairs = [].
Proof.
  split; [|by intros ->].
  destruct pairs as [|[k v] pairs]; [done|]. intros Hempty.
  assert (py_dict ((k, v) :: pairs) !! k = None) as Hnone
    by (by rewrite Hempty, lookup_empty).
  apply py_dict_lookup_None in Hnone. destruct Hnone. simpl. by left.
Qed.

Lemma native_schema_empty_iff dataset :
  native_schema dataset = ∅ ↔ pf_data dataset = [].
Proof.
  unfold native_schema. rewrite fmap_empty_iff, py_dict_empty_iff.
  split; [|by intros ->]. by destruct (pf_data dataset).
Qed.

(** X14.  [_generate_schema_from_datafiles] reads the schema off the first
    dataset that has a column and looks at no later one; it is empty when
    no dataset has a column.  There, a column has the dtype of the last
    field of that name and no default. *)
Theorem schema_of_first_dataset_with_columns
    (pre post : list (ParquetFile cell)) dataset :
  Forall (λ d, pf_data d = []) pre →
  _generate_schema_from_datafiles pre = ∅
  ∧ (pf_data dataset ≠ [] →
     _generate_schema_from_datafiles (pre ++ dataset :: post)
     = native_schema dataset)
  ∧ (∀ fields fields' name c,
       pf_data dataset = (fields ++ (name, c) :: fields')%list →
       name ∉ fields'.*1 →
       native_schema dataset !! name
       = Some {| se_dtype := col_dtype c; se_default := None |})
  ∧ (∀ name, name ∉ (pf_data dataset).*1 →
             native_schema dataset !! name = None).
Proof.
  intros Hpre. unfold _generate_schema_from_datafiles.
  split; [|split; [|split]].
  - induction Hpre as [|d pre Hd _ IH]; [done|]. simpl.
    apply native_schema_empty_iff in Hd. rewrite Hd.
    rewrite bool_decide_true by done. by rewrite (left_id ∅ (∪)).
  - intros Hcolumns. induction Hpre as [|d pre Hd _ IH]; simpl.
    + rewrite bool_decide_false by (by rewrite native_schema_empty_iff).
      by rewrite (right_id ∅ (∪)).
    + apply native_schema_empty_iff in Hd. rewrite Hd.
      rewrite bool_decide_true by done. by rewrite (left_id ∅ (∪)).
  - intros fields fields' name c Hdata Hlast. unfold native_schema.
    rewrite Hdata, fmap_app, fmap_cons, lookup_fmap. simpl.
    rewrite py_dict_lookup_last; [done|].
    by rewrite <- list_fmap_compose.
  - intros name Hnot. unfold native_schema. rewrite lookup_fmap.
    assert (py_dict ((λ kc, (kc.1, col_dtype kc.2)) <$> pf_data dataset)
              !! name = None) as ->; [|done].
    apply py_dict_lookup_None. by rewrite <- list_fmap_compose.
Qed.

(** *** The quantity metadata *)

Lemma info_loop_ok (items : list (string * list yaml_scalar))
    (info_dict : gmap string quantity_info) w :
  NoDup items.*1 →
  (∀ q l, (q, l) ∈ items → is_Some (info_of_list l)) →
  ∃ info,
    for_eachM
      (λ info_dict '(quantity, info_list),
         match info_list with
         | d :: u :: b :: p :: _ =>
             ret (<[quantity := {| qi_description := d; qi_unit := u;
                                   qi_in_GCRbase := b; qi_in_DPDD := p |}]>
                    info_dict)
         | _ => raise IndexError
         end) items info_dict w = (Ok info, w)
    ∧ ∀ q, info !! q
           = match (list_to_map items : gmap string _) !! q with
             | Some l => info_of_list l
             | None => info_dict !! q
             end.
Proof.
  revert info_dict. induction items as [|[q0 l0] items IH];
    intros info_dict Hnodup Hgood.
  { exists info_dict. split; [done|]. intros q. simpl.
    by rewrite lookup_empty. }
  apply NoDup_cons in Hnodup as [Hq0 Hnodup].
  destruct (Hgood q0 l0) as [i0 Hi0]; [by left|].
  destruct l0 as [|d [|u [|b [|p l0]]]]; try done.
  cbn [for_eachM]. unfold bind at 1. simpl.
  destruct (IH (<[q0 := {| qi_description := d; qi_unit := u;
                           qi_in_GCRbase := b; qi_in_DPDD := p |}]> info_dict))
    as (info & Hrun & Hlookup); [done| |].
  { intros q l Hin. apply (Hgood q l). by right. }
  exists info. split; [exact Hrun|]. intros q. rewrite Hlookup.
  destruct (decide (q = q0)) as [->|Hne].
  - rewrite (not_elem_of_list_to_map_1 items q0) by done.
    by rewrite !lookup_insert_eq.
  - by rewrite !lookup_insert_ne.
Qed.

Lemma info_loop_short (items : list (string * list yaml_scalar))
    (info_dict : gmap string quantity_info) w :
  (∃ q l, (q, l) ∈ items ∧ info_of_list l = None) →
  for_eachM
    (λ info_dict '(quantity, info_list),
       match info_list with
       | d :: u :: b :: p :: _ =>
           ret (cell := cell)
               (<[quantity := {| qi_description := d; qi_unit := u;
                                 qi_in_GCRbase := b; qi_in_DPDD := p |}]>
                  info_dict)
       | _ => raise IndexError
       end) items info_dict w = (Err IndexError, w).
Proof.
  revert info_dict. induction items as [|[q0 l0] items IH];
    intros info_dict (q & l & Hin & Hshort).
  { by apply elem_of_nil in Hin. }
  cbn [for_eachM]. unfold bind at 1.
  destruct (info_of_list l0) as [i0|] eqn:Hl0.
  - destruct l0 as [|d [|u [|b [|p l0]]]]; try done. simpl.
    apply IH. apply elem_of_cons in Hin as [[= -> ->]|Hin]; [|by eauto].
    simpl in Hshort. done.
  - by destruct l0 as [|d [|u [|b [|p l0]]]].
Qed.

(** X15.  [_generate_info_dict] gives every quantity of the metadata file
    the first four items of its list, as description, unit and the two
    flags, when every list has at least four items; it raises [IndexError]
    when some list is shorter, and [OSError] when the file is missing. *)
Theorem info_dict_of_metadata (meta_path : string) w :
  (∀ doc,
     fs_files (w_fs w) !! meta_path = Some (FileMeta doc) →
     ((∀ q l, doc !! q = Some l → is_Some (info_of_list l)) →
      ∃ info,
        _generate_info_dict meta_path w = (Ok info, w)
        ∧ ∀ q, info !! q = doc !! q ≫= info_of_list)
     ∧ ((∃ q l, doc !! q = Some l ∧ info_of_list l = None) →
        _generate_info_dict meta_path w = (Err IndexError, w)))
  ∧ (fs_files (w_fs w) !! meta_path = None →
     _generate_info_dict meta_path w = (Err OSError, w)).
Proof.
  split.
  - intros doc Hfile. unfold _generate_info_dict.
    rewrite (bind_ok _ _ w doc w) by (by rewrite Hfile). split.
    + intros Hgood.
      destruct (info_loop_ok (map_to_list doc) ∅ w) as (info & Hrun & Hlookup).
      { apply NoDup_fst_map_to_list. }
      { intros q l Hin. apply elem_of_map_to_list in Hin. by apply (Hgood q). }
      exists info. split; [exact Hrun|]. intros q.
      rewrite Hlookup, list_to_map_to_list.
      destruct (doc !! q); [done|]. by rewrite lookup_empty.
    + intros (q & l & Hq & Hshort). apply info_loop_short.
      exists q, l. split; [|done]. by apply elem_of_map_to_list.
  - intros Hnone. unfold _generate_info_dict. apply bind_err.
    by rewrite Hnone.
Qed.

(** *** Writing the schema file *)

Lemma isfile_absent w (path : string) :
  fs_files (w_fs w) !! path = None → isfile path w = (Ok false, w).
Proof.
  intros Hnone. unfold isfile. rewrite Hnone.
  rewrite bool_decide_false by (by intros [? ?]). by rewrite andb_false_r.
Qed.

Lemma regenerate_without_file self w (overwrite : bool) :
  _schema_path self ≠ "" →
  fs_files (w_fs w) !! _schema_path self = None →
  fs_dirs (w_fs w) !! _schema_path self = None →
  generate_schema_yaml self overwrite w
  = (Ok tt,
     add_events [WriteFile (_schema_path self)]
       (write_file (_schema_path self)
          (FileSchema (Some (regenerated_schema self))) w)).
Proof.
  intros Hpath Hnone Hnodir. unfold generate_schema_yaml.
  rewrite (bind_ok _ _ _ _ _ (isfile_absent w _ Hnone)).
  rewrite andb_false_r. rewrite (bind_ok _ _ w tt w eq_refl).
  by apply yaml_dump_to_ok.
Qed.

Lemma regenerate_over_file self w (previous : file cell) :
  _schema_path self ≠ "" →
  fs_files (w_fs w) !! _schema_path self = Some previous →
  previous ≠ FileUnreadable →
  fs_dirs (w_fs w) !! _schema_path self = None →
  generate_schema_yaml self true w
  = (Ok tt,
     add_events [WriteFile (_schema_path self)]
       (write_file (_schema_path self)
          (FileSchema (Some (regenerated_schema self)))
          (add_events
             [CopyFile (_schema_path self) (_schema_path self ++ ".bak")]
             (write_file (_schema_path self ++ ".bak") previous
                (add_warning
                   ("Overwriting schema file `" ++ _schema_path self
                    ++ "`, which is backed up at `"
                    ++ _schema_path self ++ ".bak`") w))))).
Proof.
  intros Hpath Hfile Hreadable Hnodir. unfold generate_schema_yaml.
  rewrite (bind_ok _ _ _ _ _ (isfile_present w _ _ Hpath Hfile)).
  assert (String.eqb (_schema_path self) "" = false) as ->
    by (by apply String.eqb_neq).
  simpl. erewrite bind_ok.
  2:{ erewrite bind_ok by reflexivity.
      apply copyfile_ok; [exact Hfile|exact Hreadable]. }
  by rewrite yaml_dump_to_ok.
Qed.

Lemma generate_schema_yaml_inv self (overwrite : bool) w w' :
  generate_schema_yaml self overwrite w = (Ok tt, w') →
  _schema_path self ≠ ""
  ∧ fs_dirs (w_fs w') = fs_dirs (w_fs w)
  ∧ fs_files (w_fs w') !! _schema_path self
    = Some (FileSchema (Some (regenerated_schema self))).
Proof.
  unfold generate_schema_yaml. intros Hrun.
  apply bind_inv in Hrun as (schema_is_file & w0 & [= <- <-] & Hrun).
  apply bind_inv in Hrun as ([] & w1 & Hguard & Hrun).
  assert (fs_dirs (w_fs w1) = fs_dirs (w_fs w)) as Hdirs.
  { destruct (negb _ && _); [|by injection Hguard as <-].
    destruct (negb overwrite); [done|].
    apply bind_inv in Hguard as ([] & w2 & [= <-] & Hcopy).
    unfold copyfile in Hcopy.
    apply bind_inv in Hcopy as (content & w3 & Hread & Hcopy).
    assert (w3 = add_warning
                   ("Overwriting schema file `" ++ _schema_path self
                    ++ "`, which is backed up at `"
                    ++ _schema_path self ++ ".bak`") w) as ->.
    { destruct (fs_files _ !! _) as [[| | | |]|]; by injection Hread. }
    apply bind_inv in Hcopy as ([] & w4 & [= <-] & [= <-]). done. }
  unfold yaml_dump_to in Hrun.
  apply bind_inv in Hrun as (is_dir & w2 & [= _ <-] & Hrun).
  destruct (String.eqb (_schema_path self) "") eqn:Hpath; [done|].
  destruct is_dir; [done|]. simpl in Hrun.
  apply bind_inv in Hrun as ([] & w3 & [= <-] & [= <-]).
  split; [by apply String.eqb_neq|]. split; [done|].
  simpl. apply lookup_insert_eq.
Qed.

(** X16.  When no file is at the schema path, [generate_schema_yaml]
    writes the schema there whether or not [overwrite] is set: it makes no
    backup and gives no warning, and every other file is left as it
    was. *)
Theorem schema_written_without_backup self w (overwrite : bool) :
  _schema_path self ≠ "" →
  fs_files (w_fs w) !! _schema_path self = None →
  fs_dirs (w_fs w) !! _schema_path self = None →
  ∃ w',
    generate_schema_yaml self overwrite w = (Ok tt, w')
    ∧ w_events w' = (w_events w ++ [WriteFile (_schema_path self)])%list
    ∧ w_warnings w' = w_warnings w
    ∧ fs_files (w_fs w') !! _schema_path self
      = Some (FileSchema (Some (regenerated_schema self)))
    ∧ ∀ path, path ≠ _schema_path self →
              fs_files (w_fs w') !! path = fs_files (w_fs w) !! path.
Proof.
  intros Hpath Hnone Hnodir. eexists. split.
  { by apply regenerate_without_file. }
  simpl. repeat split.
  - apply lookup_insert_eq.
  - intros path Hne. by rewrite lookup_insert_ne.
Qed.

Lemma inferred_entries_have_no_default
    (datasets : list (ParquetFile cell)) (col : string) (entry : schema_entry) :
  _generate_schema_from_datafiles datasets !! col = Some entry →
  se_default entry = None.
Proof.
  unfold _generate_schema_from_datafiles.
  assert (∀ schema : gmap string schema_entry,
            (∀ c e, schema !! c = Some e → se_default e = None) →
            schema_from_datafiles_loop datasets schema !! col = Some entry →
            se_default entry = None) as Hloop.
  { induction datasets as [|d datasets IH]; intros schema Hschema; simpl.
    { apply Hschema. }
    assert (∀ c e, (native_schema d ∪ schema) !! c = Some e →
                   se_default e = None) as Hunion.
    { intros c e Hce. apply lookup_union_Some_raw in Hce as [Hce|[_ Hce]].
      - unfold native_schema in Hce. rewrite lookup_fmap in Hce.
        destruct (py_dict _ !! c); [|done]. by injection Hce as <-.
      - by apply (Hschema c). }
    destruct (bool_decide _); [by apply IH|apply Hunion]. }
  apply Hloop. intros c e. by rewrite lookup_empty.
Qed.

Lemma flag_default_spec (col : string) (entry : schema_entry) :
  se_default entry = None →
  se_dtype (flag_default col entry) = se_dtype entry
  ∧ (se_default (flag_default col entry) = Some (YBool true)
     ∨ se_default (flag_default col entry) = None)
  ∧ (se_default (flag_default col entry) = Some (YBool true)
     ↔ se_dtype entry = "bool"
       ∧ ((∃ p, col = p ++ "_flag_bad")
          ∨ (∃ p, col = p ++ "_flag_noGoodPixels"))).
Proof.
  intros Hnone.
  assert (String.eqb (se_dtype entry) "bool"
          && (endswith col "_flag_bad" || endswith col "_flag_noGoodPixels")
          = true
          ↔ se_dtype entry = "bool"
            ∧ ((∃ p, col = p ++ "_flag_bad")
               ∨ (∃ p, col = p ++ "_flag_noGoodPixels"))) as Hrule.
  { by rewrite andb_true_iff, orb_true_iff, String.eqb_eq, !endswith_spec. }
  unfold flag_default.
  destruct (String.eqb (se_dtype entry) "bool" && _) eqn:Hcond; simpl.
  - split; [done|]. split; [by left|]. split; [|done].
    intros _. by apply Hrule.
  - split; [done|]. split; [by right|]. rewrite Hnone. split; [done|].
    intros Hyes. apply Hrule in Hyes. congruence.
Qed.

(** X17.  The schema a successful [generate_schema_yaml] leaves at the
    schema path has exactly the columns read from the data files, each
    with its dtype; a column gets the default [True] when its dtype is
    [bool] and its name ends with [_flag_bad] or [_flag_noGoodPixels], and
    no default otherwise. *)
Theorem written_schema_defaults self (overwrite : bool) w w' :
  generate_schema_yaml self overwrite w = (Ok tt, w') →
  ∃ written,
    fs_files (w_fs w') !! _schema_path self = Some (FileSchema (Some written))
    ∧ ∀ col,
        match _generate_schema_from_datafiles (_datasets self) !! col with
        | None => written !! col = None
        | Some inferred =>
            ∃ entry,
              written !! col = Some entry
              ∧ se_dtype entry = se_dtype inferred
              ∧ (se_default entry = Some (YBool true)
                 ∨ se_default entry = None)
              ∧ (se_default entry = Some (YBool true)
                 ↔ se_dtype inferred = "bool"
                   ∧ ((∃ p, col = p ++ "_flag_bad")
                      ∨ (∃ p, col = p ++ "_flag_noGoodPixels")))
        end.
Proof.
  intros Hrun. apply generate_schema_yaml_inv in Hrun as (_ & _ & Hfile).
  exists (regenerated_schema self). split; [done|]. intros col.
  unfold regenerated_schema. rewrite map_lookup_imap.
  destruct (_generate_schema_from_datafiles (_datasets self) !! col)
    as [inferred|] eqn:Hcol; [|done].
  simpl. exists (flag_default col inferred). split; [done|].
  apply flag_default_spec.
  by apply (inferred_entries_have_no_default (_datasets self) col).
Qed.


(** X19.  Regenerating a second time, with [overwrite], a schema that was
    just written changes nothing at the schema path: the file holds the
    same schema as after the first run, and the backup holds that schema
    too.  Without [overwrite] the second run is refused. *)
Theorem schema_regenerated_twice self (overwrite : bool) w w1 :
  generate_schema_yaml self overwrite w = (Ok tt, w1) →
  fs_dirs (w_fs w) !! _schema_path self = None →
  (∃ msg, generate_schema_yaml self false w1 = (Err (RuntimeError msg), w1))
  ∧ ∃ w2,
      generate_schema_yaml self true w1 = (Ok tt, w2)
      ∧ fs_files (w_fs w2) !! _schema_path self
        = fs_files (w_fs w1) !! _schema_path self
      ∧ fs_files (w_fs w2) !! (_schema_path self ++ ".bak")
        = fs_files (w_fs w1) !! _schema_path self
      ∧ w_events w2
        = (w_events w1
           ++ [CopyFile (_schema_path self) (_schema_path self ++ ".bak");
               WriteFile (_schema_path self)])%list.
Proof.
  intros Hrun Hnodir.
  apply generate_schema_yaml_inv in Hrun as (Hpath & Hdirs & Hfile).
  assert (fs_dirs (w_fs w1) !! _schema_path self = None) as Hnodir1
    by (by rewrite Hdirs).
  split.
  - unfold generate_schema_yaml.
    rewrite (bind_ok _ _ _ _ _ (isfile_present w1 _ _ Hpath Hfile)).
    assert (String.eqb (_schema_path self) "" = false) as ->
      by (by apply String.eqb_neq).
    simpl. eexists. by apply bind_err.
  - eexists. split.
    { by apply (regenerate_over_file self w1 _ Hpath Hfile). }
    simpl. rewrite Hfile. split; [apply lookup_insert_eq|]. split.
    + rewrite lookup_insert_ne by (symmetry; apply backup_path_differs).
      apply lookup_insert_eq.
    + by rewrite <- app_assoc.
Qed.

(** *** Opening a file and the rest of the instance *)

(** X20.  A successful [_open_parquet] changes nothing but the cache entry
    of the path it is given: the handles cached under other paths, the
    datasets and the schema stay as they are, no handle already cached is
    replaced, and no warning or file event is produced. *)
Theorem open_parquet_only_adds_its_path self w (path : string)
    (handle : ParquetFile cell) self' w' :
  _open_parquet self path w = (Ok (handle, self'), w') →
  _file_handles self' !! path = Some handle
  ∧ (∀ other, other ≠ path →
              _file_handles self' !! other = _file_handles self !! other)
  ∧ (∀ other cached, _file_handles self !! other = Some cached →
                     _file_handles self' !! other = Some cached)
  ∧ _datasets self' = _datasets self
  ∧ _schema self' = _schema self
  ∧ w_warnings w' = w_warnings w
  ∧ w_events w' = w_events w.
Proof.
  unfold _open_parquet.
  destruct (_file_handles self !! path) as [cached|] eqn:Hcached.
  - intros [= <- <- <-]. repeat split; auto.
  - intros Hopen. apply bind_inv in Hopen as (h & w1 & Hnew & [= <- <- <-]).
    assert (w_warnings w1 = w_warnings w ∧ w_events w1 = w_events w)
      as [Hwarnings Hevents].
    { unfold pq_ParquetFile in Hnew.
      destruct (fs_files (w_fs w) !! path) as [[| |data| |]|]; try done.
      by injection Hnew as <- <-. }
    simpl. repeat split; try done.
    + apply lookup_insert_eq.
    + intros other Hne. by rewrite lookup_insert_ne.
    + intros other cached Hother.
      rewrite lookup_insert_ne; [done|]. intros <-. congruence.
Qed.

(** *** Taking only some of the getters *)




(** *** The quantity information of a constructed instance *)

Lemma _generate_info_dict_inv (meta_path : string) w
    (info : gmap string quantity_info) w' :
  _generate_info_dict meta_path w = (Ok info, w') →
  ∃ doc,
    fs_files (w_fs w) !! meta_path = Some (FileMeta doc)
    ∧ (∀ q l, doc !! q = Some l → is_Some (info_of_list l))
    ∧ ∀ q, info !! q = doc !! q ≫= info_of_list.
Proof.
  unfold _generate_info_dict. intros Hrun.
  apply bind_inv in Hrun as (doc & w1 & Hfile & Hloop).
  destruct (fs_files (w_fs w) !! meta_path) as [f|]; [|done].
  destruct f as [|doc0| | |]; try done. injection Hfile as <- <-.
  exists doc0. split; [done|].
  destruct (decide (Forall (λ ql : string * list yaml_scalar,
                              is_Some (info_of_list ql.2))
                           (map_to_list doc0))) as [Hall|Hbad].
  - destruct (info_loop_ok (map_to_list doc0) ∅ w) as (info0 & Hrun & Hlookup).
    { apply NoDup_fst_map_to_list. }
    { intros q l Hin. by apply (proj1 (Forall_forall _ _) Hall (q, l)). }
    rewrite Hrun in Hloop. injection Hloop as <- _. split.
    + intros q l Hq. apply elem_of_map_to_list in Hq.
      by apply (proj1 (Forall_forall _ _) Hall (q, l)).
    + intros q. rewrite Hlookup, list_to_map_to_list.
      destruct (doc0 !! q); [done|]. by rewrite lookup_empty.
  - apply not_Forall_Exists in Hbad; [|apply _].
    apply Exists_exists in Hbad as ([q l] & Hin & Hshort). simpl in Hshort.
    rewrite (info_loop_short (map_to_list doc0) ∅ w) in Hloop; [done|].
    exists q, l. split; [done|].
    destruct (info_of_list l); [|done]. destruct Hshort. by eexists.
Qed.

(** X22.  An instance is only constructed over a metadata file in which
    every quantity has at least four items, and its
    [_get_quantity_info_dict] then answers from that file: the entry made
    of the first four items for a quantity of the file, the default for any
    other. *)
Theorem constructed_quantity_info (FILE_DIR : string)
    (generate_modifiers : nat → gmap string (option string))
    (kw : kwargs) w self w' :
  _subclass_init FILE_DIR generate_modifiers kw w = (Ok self, w') →
  ∃ doc,
    fs_files (w_fs w) !! META_PATH FILE_DIR = Some (FileMeta doc)
    ∧ (∀ q l, doc !! q = Some l → is_Some (info_of_list l))
    ∧ ∀ quantity default,
        _get_quantity_info_dict self quantity default
        = match doc !! quantity with
          | Some info_list => info_of_list info_list
          | None => default
          end.
Proof.
  unfold _subclass_init. intros Hinit.
  destruct (kw_base_dir kw) as [base|]; [|done].
  apply bind_inv in Hinit as (base' & w0 & [= <- <-] & Hinit).
  apply bind_inv in Hinit as (base_is_dir & w0 & [= <- <-] & Hinit).
  destruct (negb _); [done|].
  apply bind_inv in Hinit as (schema_is_file & w0 & [= <- <-] & Hinit).
  apply bind_inv in Hinit as (schema0 & w1 & Hload & Hinit).
  apply bind_inv in Hinit as ([datasets self1] & w2 & Hdatasets & Hinit).
  cbn [_datasets set_datasets] in Hinit.
  destruct datasets as [|d ds]; [done|].
  apply bind_inv in Hinit as (self2 & w3 & Hfallback & Hinit).
  apply bind_inv in Hinit as (info & w4 & Hinfo & [= <- <-]).
  assert (w_fs w1 = w_fs w) as Hfs1.
  { match type of Hload with
    | (if ?b then _ else _) _ = _ => destruct b
    end.
    - by apply reads_only_schema_from_yaml in Hload.
    - by injection Hload as _ <-. }
  assert (w_fs w2 = w_fs w1) as Hfs2
    by (by apply reads_only_generate_datasets in Hdatasets).
  assert (w_fs w3 = w_fs w2) as Hfs3.
  { match type of Hfallback with
    | (if ?b then _ else _) _ = _ => destruct b
    end.
    - by apply bind_inv in Hfallback as ([] & w5 & [= <-] & [= _ <-]).
    - by injection Hfallback as _ <-. }
  apply _generate_info_dict_inv in Hinfo as (doc & Hfile & Hgood & Hlookup).
  rewrite Hfs3, Hfs2, Hfs1 in Hfile.
  exists doc. split; [exact Hfile|]. split; [exact Hgood|].
  intros quantity default. unfold _get_quantity_info_dict. simpl.
  rewrite Hlookup. destruct (doc !! quantity) as [l|] eqn:Hq; [|done].
  simpl. by destruct (Hgood quantity l Hq) as [entry ->].
Qed.

(** *** Where the schema of a constructed instance comes from *)






(** *** The names that are data files *)

Lemma strip_prefix_spec (p s r : string) :
  strip_prefix p s = Some r ↔ s = p ++ r.
Proof.
  revert s. induction p as [|a p IH]; intros s.
  - change ("" ++ r) with r. simpl. split; congruence.
  - change (String a p ++ r) with (String a (p ++ r)).
    destruct s as [|c s]; simpl; [split; discriminate|].
    destruct (Ascii.eqb a c) eqn:Heq.
    + apply Ascii.eqb_eq in Heq as ->. rewrite IH. split; congruence.
    + split; [discriminate|]. intros [= -> _].
      rewrite Ascii.eqb_refl in Heq. discriminate.
Qed.

Lemma skip_digits_spec (s : string) :
  ∃ digits, all_digits digits = true ∧ s = digits ++ skip_digits s.
Proof.
  induction s as [|c s (digits & Hdigits & Hs)].
  - by exists "".
  - simpl. destruct (is_digit c) eqn:Hc.
    + exists (String c digits). simpl. rewrite Hc, Hdigits. split; [done|].
      change (String c digits ++ skip_digits s)
        with (String c (digits ++ skip_digits s)).
      by rewrite <- Hs.
    + by exists "".
Qed.

Lemma skip_digits_app (digits tail : string) :
  all_digits digits = true →
  match tail with
  | String c _ => is_digit c = false
  | EmptyString => True
  end →
  skip_digits (digits ++ tail) = tail.
Proof.
  intros Hdigits Htail. induction digits as [|c digits IH].
  - change ("" ++ tail) with tail. destruct tail as [|c tail]; [done|].
    simpl. by rewrite Htail.
  - change (String c digits ++ tail) with (String c (digits ++ tail)).
    simpl in Hdigits. apply andb_true_iff in Hdigits as [Hc Hdigits].
    simpl. rewrite Hc. by apply IH.
Qed.

(** X24.  On ASCII names, the default pattern takes for a data file the
    names made of [source_visit_], one or more decimal digits and
    [.parquet], with nothing before, and nothing after but for one final
    newline. *)
Theorem file_pattern_language (fname : string) :
  FILE_PATTERN fname = true
  ↔ ∃ digits,
      digits ≠ "" ∧ all_digits digits = true
      ∧ (fname = "source_visit_" ++ digits ++ ".parquet"
         ∨ fname = "source_visit_" ++ digits ++ ".parquet"
                   ++ String "010" EmptyString).
Proof.
  unfold FILE_PATTERN. split.
  - destruct (strip_prefix "source_visit_" fname) as [[|c rest]|] eqn:Hprefix;
      try done.
    apply strip_prefix_spec in Hprefix as ->.
    intros [Hc Htail]%andb_true_iff.
    destruct (skip_digits_spec rest) as (digits & Hdigits & Hrest).
    exists (String c digits). split; [done|]. split.
    { simpl. by rewrite Hc, Hdigits. }
    change (String c digits ++ ?t) with (String c (digits ++ t)).
    apply orb_true_iff in Htail as [Htail|Htail];
      apply String.eqb_eq in Htail; rewrite Htail in Hrest;
      [left|right]; by rewrite Hrest.
  - intros (digits & Hsome & Hdigits & Hname).
    destruct digits as [|c digits]; [done|].
    simpl in Hdigits. apply andb_true_iff in Hdigits as [Hc Hdigits].
    destruct Hname as [->| ->].
    + rewrite (proj2 (strip_prefix_spec
                        "source_visit_" _ (String c (digits ++ ".parquet"))))
        by done.
      rewrite Hc, skip_digits_app by done. done.
    + rewrite (proj2 (strip_prefix_spec
                        "source_visit_" _
                        (String c (digits ++ ".parquet"
                                   ++ String "010" EmptyString))))
        by done.
      rewrite Hc, skip_digits_app by done. done.
Qed.

(** *** Clearing the caches *)




(** *** Reading a quantity, end to end *)




End dm_catalog_more.

Section dm_catalog_more_example.
Import DM DMExample DMCases.

Lemma construction_and_iteration_read_only_witness :
  w_fs (_subclass_init FILE_DIR _generate_modifiers kw world_two).2
  = w_fs world_two
  ∧ w_fs (_subclass_init FILE_DIR _generate_modifiers kw world_none).2
    = w_fs world_none
  ∧ w_fs (gen_collect 3 (_iter_native_dataset catalog_two None) world_two).2
    = w_fs world_two.
Proof.
  destruct (construction_and_iteration_read_only
              (cell := Z) FILE_DIR _generate_modifiers kw
              (_iter_native_dataset catalog_two None) 3)
    as (Hinit & _ & Hcollect).
  split; [|split].
  - destruct (_subclass_init FILE_DIR _generate_modifiers kw world_two)
      as [r w'] eqn:Hrun.
    by apply Hinit in Hrun.
  - destruct (_subclass_init FILE_DIR _generate_modifiers kw world_none)
      as [r w'] eqn:Hrun.
    by apply Hinit in Hrun.
  - destruct (gen_collect 3 (_iter_native_dataset catalog_two None) world_two)
      as [r w'] eqn:Hrun.
    by apply Hcollect in Hrun.
Defined.

Lemma discovery_of_datasets_witness :
  ∃ datasets self' w',
    _generate_datasets blank world_partial = (Ok (datasets, self'), w')
    ∧ pf_path <$> datasets
      = ["/data/source_visit_1.parquet"; "/data/source_visit_2.parquet"]
    ∧ w_warnings w' = ["Cannot access /data/source_visit_3.parquet; skipped"].
Proof.
  destruct (discovery_of_datasets
              blank world_partial
              ["source_visit_3.parquet"; "source_visit_2.parquet"; "notes.txt";
               "source_visit_1.parquet"])
    as (datasets & self' & w' & Hrun & Hpaths & Hwarn & _).
  - reflexivity.
  - reflexivity.
  - intros fname Hin _.
    repeat (apply elem_of_cons in Hin as [->|Hin];
            [first [by left | by right]|]).
    by apply elem_of_nil in Hin.
  - exists datasets, self', w'. split; [exact Hrun|]. split.
    + rewrite Hpaths. by vm_compute.
    + rewrite Hwarn. by vm_compute.
Defined.

Lemma constructed_cache_holds_the_datasets_witness :
  ∃ self w',
    _subclass_init FILE_DIR _generate_modifiers kw world_two = (Ok self, w')
    ∧ (∀ d, d ∈ _datasets self → _file_handles self !! pf_path d = Some d)
    ∧ (∀ path handle,
         _file_handles self !! path = Some handle →
         handle ∈ _datasets self ∧ pf_path handle = path).
Proof.
  destruct (_subclass_init FILE_DIR _generate_modifiers kw world_two)
    as [[self|e] w'] eqn:Hinit; [|vm_compute in Hinit; discriminate].
  exists self, w'. split; [reflexivity|].
  exact (constructed_cache_holds_the_datasets
           FILE_DIR _generate_modifiers kw world_two self w' Hinit).
Defined.

Lemma constructed_quantities_witness :
  ∃ self w' schema,
    _subclass_init FILE_DIR modifiers_of kw_dpdd world_two = (Ok self, w')
    ∧ _schema self = Some schema
    ∧ _native_filter_quantities self = dom schema
    ∧ _generate_native_quantity_list self = dom schema
    ∧ ∀ col, _quantity_modifiers self !! col
             = if decide (col ∈ dom schema) then Some None else None.
Proof.
  destruct (_subclass_init FILE_DIR modifiers_of kw_dpdd world_two)
    as [[self|e] w'] eqn:Hinit; [|vm_compute in Hinit; discriminate].
  destruct (constructed_quantities
              FILE_DIR modifiers_of kw_dpdd world_two self w' Hinit)
    as (schema & Hschema & Hnative & Hlist & Hmod).
  exists self, w', schema. split; [reflexivity|].
  split; [exact Hschema|]. split; [exact Hnative|]. split; [exact Hlist|].
  apply Hmod. reflexivity.
Defined.

Lemma schema_of_first_dataset_with_columns_witness :
  _generate_schema_from_datafiles [empty_visit] = ∅
  ∧ _generate_schema_from_datafiles
      [empty_visit;
       handle 1 "/data/source_visit_1.parquet"
         (("ra", col "float32" [1]%Z) :: visit1);
       handle 2 "/data/source_visit_2.parquet" [("dec", col "float64" [2]%Z)]]
    = native_schema
        (handle 1 "/data/source_visit_1.parquet"
           (("ra", col "float32" [1]%Z) :: visit1))
  ∧ native_schema
      (handle 1 "/data/source_visit_1.parquet"
         (("ra", col "float32" [1]%Z) :: visit1)) !! "ra"
    = Some {| se_dtype := "float64"; se_default := None |}
  ∧ native_schema
      (handle 1 "/data/source_visit_1.parquet"
         (("ra", col "float32" [1]%Z) :: visit1)) !! "dec"
    = None.
Proof.
  destruct (schema_of_first_dataset_with_columns
              [empty_visit]
              [handle 2 "/data/source_visit_2.parquet"
                 [("dec", col "float64" [2]%Z)]]
              (handle 1 "/data/source_visit_1.parquet"
                 (("ra", col "float32" [1]%Z) :: visit1)))
    as (Hpre & Hfirst & Hlast & Hnone).
  - by repeat constructor.
  - split; [exact Hpre|]. split; [|split].
    + apply Hfirst. discriminate.
    + apply (Hlast [("ra", col "float32" [1]%Z)]
                   [("psFlux_flag_bad", col "bool" [0; 1]%Z)]
                   "ra" (col "float64" [10; 20]%Z)).
      * reflexivity.
      * apply (bool_decide_unpack _). by vm_compute.
    + apply Hnone. apply (bool_decide_unpack _). by vm_compute.
Defined.

Lemma info_dict_of_metadata_witness :
  (∃ info,
     _generate_info_dict (META_PATH FILE_DIR) world_two = (Ok info, world_two)
     ∧ info !! "ra"
       = Some {| qi_description := YStr "Right ascension";
                 qi_unit := YStr "degree";
                 qi_in_GCRbase := YBool true; qi_in_DPDD := YBool true |})
  ∧ _generate_info_dict (META_PATH FILE_DIR) world_short_meta
    = (Err IndexError, world_short_meta)
  ∧ _generate_info_dict "/nowhere/meta.yaml" world_two
    = (Err OSError, world_two).
Proof.
  split; [|split].
  - destruct (info_dict_of_metadata (META_PATH FILE_DIR) world_two)
      as (Hdoc & _).
    destruct (Hdoc {["ra" := [YStr "Right ascension"; YStr "degree";
                              YBool true; YBool true]]})
      as (Hfull & _); [reflexivity|].
    destruct Hfull as (info & Hrun & Hinfo).
    + intros q l Hl. apply lookup_singleton_Some in Hl as [_ <-]. by eexists.
    + exists info. split; [exact Hrun|]. by rewrite Hinfo.
  - destruct (info_dict_of_metadata (META_PATH FILE_DIR) world_short_meta)
      as (Hdoc & _).
    destruct (Hdoc {["ra" := [YStr "Right ascension"; YStr "degree"]]})
      as (_ & Hshort); [reflexivity|].
    apply Hshort.
    exists "ra", [YStr "Right ascension"; YStr "degree"].
    split; reflexivity.
  - destruct (info_dict_of_metadata "/nowhere/meta.yaml" world_two)
      as (_ & Hmissing).
    apply Hmissing. reflexivity.
Defined.

Lemma schema_written_without_backup_witness :
  ∃ w',
    generate_schema_yaml catalog_two false world_two = (Ok tt, w')
    ∧ w_events w' = [WriteFile "/data/schema.yaml"]
    ∧ w_warnings w' = []
    ∧ fs_files (w_fs w') !! "/data/schema.yaml"
      = Some (FileSchema (Some (regenerated_schema catalog_two)))
    ∧ ∀ path, path ≠ "/data/schema.yaml" →
              fs_files (w_fs w') !! path = fs_files (w_fs world_two) !! path.
Proof.
  apply (schema_written_without_backup catalog_two world_two false).
  - discriminate.
  - reflexivity.
  - reflexivity.
Defined.

Lemma written_schema_defaults_witness :
  ∃ w' written,
    generate_schema_yaml catalog_two false world_two = (Ok tt, w')
    ∧ fs_files (w_fs w') !! "/data/schema.yaml"
      = Some (FileSchema (Some written))
    ∧ written !! "psFlux_flag_bad"
      = Some {| se_dtype := "bool"; se_default := Some (YBool true) |}
    ∧ written !! "ra"
      = Some {| se_dtype := "float64"; se_default := None |}
    ∧ written !! "dec" = None.
Proof.
  destruct (generate_schema_yaml catalog_two false world_two)
    as [[[]|e] w'] eqn:Hrun; [|vm_compute in Hrun; discriminate].
  destruct (written_schema_defaults catalog_two false world_two w' Hrun)
    as (written & Hfile & Hcols).
  exists w', written. split; [reflexivity|]. split; [exact Hfile|].
  split; [|split].
  - pose proof (Hcols "psFlux_flag_bad") as Hcol.
    change (_generate_schema_from_datafiles (_datasets catalog_two)
              !! "psFlux_flag_bad")
      with (Some {| se_dtype := "bool"; se_default := None |}) in Hcol.
    destruct Hcol as ([dtype default] & -> & Hdtype & _ & Hdefault).
    simpl in Hdtype, Hdefault. subst dtype. f_equal. f_equal.
    apply Hdefault. split; [reflexivity|]. left. by exists "psFlux".
  - pose proof (Hcols "ra") as Hcol.
    change (_generate_schema_from_datafiles (_datasets catalog_two) !! "ra")
      with (Some {| se_dtype := "float64"; se_default := None |}) in Hcol.
    destruct Hcol as ([dtype default] & -> & Hdtype & [Hsome|Hnone] & Hdefault).
    + apply Hdefault in Hsome as [Hbool _]. discriminate.
    + simpl in Hdtype, Hnone. by subst.
  - pose proof (Hcols "dec") as Hcol.
    change (_generate_schema_from_datafiles (_datasets catalog_two) !! "dec")
      with (@None schema_entry) in Hcol.
    exact Hcol.
Defined.


Lemma schema_regenerated_twice_witness :
  ∃ w1,
    generate_schema_yaml catalog_two false world_two = (Ok tt, w1)
    ∧ (∃ msg, generate_schema_yaml catalog_two false w1
              = (Err (RuntimeError msg), w1))
    ∧ ∃ w2,
        generate_schema_yaml catalog_two true w1 = (Ok tt, w2)
        ∧ fs_files (w_fs w2) !! "/data/schema.yaml"
          = fs_files (w_fs w1) !! "/data/schema.yaml"
        ∧ fs_files (w_fs w2) !! "/data/schema.yaml.bak"
          = fs_files (w_fs w1) !! "/data/schema.yaml"
        ∧ w_events w2
          = (w_events w1
             ++ [CopyFile "/data/schema.yaml" "/data/schema.yaml.bak";
                 WriteFile "/data/schema.yaml"])%list.
Proof.
  destruct (generate_schema_yaml catalog_two false world_two)
    as [[[]|e] w1] eqn:Hrun; [|vm_compute in Hrun; discriminate].
  exists w1. split; [reflexivity|].
  apply (schema_regenerated_twice catalog_two false world_two w1 Hrun).
  reflexivity.
Defined.

Lemma open_parquet_only_adds_its_path_witness :
  ∃ opened self' w',
    _open_parquet catalog "/data/source_visit_2.parquet" world_two
    = (Ok (opened, self'), w')
    ∧ _file_handles self' !! "/data/source_visit_2.parquet" = Some opened
    ∧ _file_handles self' !! "/data/source_visit_1.parquet"
      = Some (handle 0 "/data/source_visit_1.parquet" visit1)
    ∧ _datasets self' = _datasets catalog
    ∧ _schema self' = _schema catalog
    ∧ w_warnings w' = []
    ∧ w_events w' = [].
Proof.
  destruct (_open_parquet catalog "/data/source_visit_2.parquet" world_two)
    as [[[opened self']|e] w'] eqn:Hrun; [|vm_compute in Hrun; discriminate].
  destruct (open_parquet_only_adds_its_path
              catalog world_two "/data/source_visit_2.parquet"
              opened self' w' Hrun)
    as (Hpath & _ & Hkept & Hdatasets & Hschema & Hwarn & Hevents).
  exists opened, self', w'. split; [reflexivity|].
  split; [exact Hpath|]. split; [|by repeat split].
  apply Hkept. reflexivity.
Defined.


Lemma constructed_quantity_info_witness :
  ∃ self w',
    _subclass_init FILE_DIR _generate_modifiers kw world_two = (Ok self, w')
    ∧ _get_quantity_info_dict self "ra" None
      = Some {| qi_description := YStr "Right ascension";
                qi_unit := YStr "degree";
                qi_in_GCRbase := YBool true; qi_in_DPDD := YBool true |}
    ∧ _get_quantity_info_dict self "dec" None = None.
Proof.
  destruct (_subclass_init FILE_DIR _generate_modifiers kw world_two)
    as [[self|e] w'] eqn:Hinit; [|vm_compute in Hinit; discriminate].
  destruct (constructed_quantity_info
              FILE_DIR _generate_modifiers kw world_two self w' Hinit)
    as (doc & Hfile & _ & Hget).
  assert (fs_files (w_fs world_two) !! META_PATH FILE_DIR = Some meta)
    as Hmeta by reflexivity.
  rewrite Hmeta in Hfile. injection Hfile as <-.
  exists self, w'. split; [reflexivity|]. rewrite !Hget.
  split; reflexivity.
Defined.




End dm_catalog_more_example.
